(** * projet_pyspark: flight snapshot enrichment and analytics

    A shallow embedding of [projet_pyspark.py].  The Spark operations the
    script calls (filter, join, groupBy, window ranking, SQL aggregates) are
    given their row-level meaning on lists of rows; the Python function
    [distance] and the [math] functions it calls are embedded over the real
    numbers, which stand for Python and Spark floating-point values.

    Rounding, NaN and infinities are outside this model.  In particular the
    argument [a] of the square roots of [distance] lies in [[0, 1]] over the
    real numbers, while in IEEE double precision it can round to a value
    greater than 1 for two points opposite to each other on the sphere, where
    [math.sqrt (1 - a)] raises [ValueError].  What is proved of the float
    branch of [distance] is proved of the exact formula; it carries over to
    the Python function only where rounding plays no part, as when the two
    points are exchanged (the same operations on the same values, up to the
    sign of the two differences). *)

From Stdlib Require Import Ascii String List ZArith Bool Arith Lia.
From Stdlib Require Import Reals Lra Psatz.
From Stdlib Require Import Permutation.
From Stdlib Require DecimalN DecimalString.
Import ListNotations.

Open Scope string_scope.
Open Scope list_scope.

(** ** Python: the [math] module and the function [distance] *)

Module PyMath.

(** [math.radians]. *)
Definition radians (x : R) : R := (x * (PI / 180))%R.

(** [math.sqrt] raises [ValueError] on a negative argument: [None]. *)
Definition sqrt (x : R) : option R :=
  if Rle_dec 0 x then Some (R_sqrt.sqrt x) else None.

(** [math.atan2 y x]: the angle of the point [(x, y)], in [(-PI, PI]]. *)
Definition atan2 (y x : R) : R :=
  if Rlt_dec 0 x then atan (y / x)
  else if Rlt_dec x 0 then
    (if Rle_dec 0 y then atan (y / x) + PI else atan (y / x) - PI)%R
  else if Rlt_dec 0 y then (PI / 2)%R
  else if Rlt_dec y 0 then (- (PI / 2))%R
  else 0%R.

End PyMath.

(** A number returned by a Python function: an [int] or a [float]. *)
Inductive pynum : Type :=
| PyInt (z : Z)
| PyFloat (x : R).

(** The numeric value of a Python number ([-1 == -1.0] in Python). *)
Definition pynum_value (n : pynum) : R :=
  match n with
  | PyInt z => IZR z
  | PyFloat x => x
  end.

(** The argument [a] of the two square roots in [distance], from coordinates
    already converted to radians. *)
Definition distance_a (lat1 lon1 lat2 lon2 : R) : R :=
  let dlon := (lon2 - lon1)%R in
  let dlat := (lat2 - lat1)%R in
  (sin (dlat / 2) ^ 2 + cos lat1 * cos lat2 * sin (dlon / 2) ^ 2)%R.

(** [distance], nested in [add_distance_dataframe].  An argument is [None]
    (Python [None]) or a float.  The result is [None] when the body raises,
    which the square roots do on a negative argument.  Over the real numbers
    that never happens; with IEEE doubles it happens when [a] rounds above 1
    (points opposite to each other on the sphere), a case this embedding
    does not show. *)
Definition distance (lat1 lon1 lat2 lon2 : option R) : option pynum :=
  match lat1, lon1, lat2, lon2 with
  | Some lat1, Some lon1, Some lat2, Some lon2 =>
      let R_earth := 6373%R in
      let lat1 := PyMath.radians lat1 in
      let lon1 := PyMath.radians lon1 in
      let lat2 := PyMath.radians lat2 in
      let lon2 := PyMath.radians lon2 in
      let a := distance_a lat1 lon1 lat2 lon2 in
      match PyMath.sqrt a, PyMath.sqrt (1 - a) with
      | Some sa, Some sb =>
          let c := (2 * PyMath.atan2 sa sb)%R in
          Some (PyFloat (R_earth * c))
      | _, _ => None
      end
  | _, _, _, _ => Some (PyInt (-1))
  end.

(** The haversine function, in which the argument [a] of [distance] can be
    written. *)
Definition hav (theta : R) : R := ((1 - cos theta) / 2)%R.

(** ** Spark SQL: values, three-valued logic, rows and DataFrames *)

(** A cell of a DataFrame.  [VNull] is SQL NULL; a float is a real number. *)
Inductive value : Type :=
| VNull
| VStr (s : string)
| VInt (z : Z)
| VFloat (x : R).

Definition value_eq_dec (a b : value) : {a = b} + {a <> b}.
Proof.
  decide equality; [apply string_dec | apply Z.eq_dec | apply Req_dec_T].
Defined.

(** Equality of grouping and partitioning keys: NULL is equal to NULL. *)
Definition value_eqb (a b : value) : bool :=
  if value_eq_dec a b then true else false.

Definition key_eqb (a b : list value) : bool :=
  if list_eq_dec value_eq_dec a b then true else false.

Definition is_null (v : value) : bool :=
  match v with VNull => true | _ => false end.

(** A SQL condition is true, false or unknown ([None]). *)
Definition tribool : Type := option bool.

Definition not3 (a : tribool) : tribool := option_map negb a.

Definition or3 (a b : tribool) : tribool :=
  match a, b with
  | Some true, _ | _, Some true => Some true
  | Some false, Some false => Some false
  | _, _ => None
  end.

Definition and3 (a b : tribool) : tribool :=
  match a, b with
  | Some false, _ | _, Some false => Some false
  | Some true, Some true => Some true
  | _, _ => None
  end.

(** [WHERE], [filter] and join conditions keep a row only when the condition
    is true. *)
Definition holds (a : tribool) : bool :=
  match a with Some true => true | _ => false end.

(** [a = b] (Python [==] on columns): unknown when an operand is NULL. *)
Definition sql_eq (a b : value) : tribool :=
  match a, b with
  | VNull, _ | _, VNull => None
  | _, _ => Some (value_eqb a b)
  end.

(** The number in a numeric cell. *)
Definition num_of (v : value) : option R :=
  match v with
  | VInt z => Some (IZR z)
  | VFloat x => Some x
  | _ => None
  end.

(** [a < b] on numeric cells: unknown when an operand is NULL. *)
Definition sql_lt (a b : value) : tribool :=
  match num_of a, num_of b with
  | Some x, Some y => Some (if Rlt_dec x y then true else false)
  | _, _ => None
  end.

Definition sql_gt (a b : value) : tribool := sql_lt b a.

(** [col.isin(l)] for a list of non-null literals. *)
Definition isin (v : value) (l : list value) : tribool :=
  match v with
  | VNull => None
  | _ => Some (existsb (value_eqb v) l)
  end.

Definition isNotNull (v : value) : tribool := Some (negb (is_null v)).

(** A row binds column names to cells, in the order of the schema; a join
    can leave two columns of the same name in a row. *)
Definition Row : Type := list (string * value).

Record DataFrame : Type := mkDF {
  columns : list string;
  rows : list Row
}.

(** The cell of a column in a row (the first column of that name). *)
Fixpoint get (c : string) (r : Row) : value :=
  match r with
  | [] => VNull
  | (c', v) :: t => if String.eqb c c' then v else get c t
  end.

Definition mem (c : string) (names : list string) : bool :=
  existsb (String.eqb c) names.

Definition filter_df (cond : Row -> tribool) (df : DataFrame) : DataFrame :=
  mkDF (columns df) (filter (fun r => holds (cond r)) (rows df)).

(** [df.drop(names)] removes every column that has one of the names. *)
Definition drop_row (names : list string) (r : Row) : Row :=
  filter (fun p => negb (mem (fst p) names)) r.

Definition drop (names : list string) (df : DataFrame) : DataFrame :=
  mkDF (filter (fun c => negb (mem c names)) (columns df))
       (map (drop_row names) (rows df)).

Definition rename (old new c : string) : string :=
  if String.eqb c old then new else c.

Definition withColumnRenamed (old new : string) (df : DataFrame) : DataFrame :=
  mkDF (map (rename old new) (columns df))
       (map (map (fun p => (rename old new (fst p), snd p))) (rows df)).

(** [df.withColumn(c, e)] replaces the column [c] when it exists and appends
    it otherwise. *)
Definition withColumn (c : string) (e : Row -> value) (df : DataFrame)
  : DataFrame :=
  if mem c (columns df)
  then mkDF (columns df)
            (map (fun r =>
                    map (fun p => if String.eqb (fst p) c then (c, e r) else p) r)
                 (rows df))
  else mkDF (columns df ++ [c]) (map (fun r => r ++ [(c, e r)]) (rows df)).

Definition select_row (names : list string) (r : Row) : Row :=
  map (fun c => (c, get c r)) names.

Definition select (names : list string) (df : DataFrame) : DataFrame :=
  mkDF names (map (select_row names) (rows df)).

Definition limit (n : nat) (df : DataFrame) : DataFrame :=
  mkDF (columns df) (firstn n (rows df)).

Definition null_row (names : list string) : Row :=
  map (fun c => (c, VNull)) names.

(** *** Joins *)

(** The rows of the right side that a left row joins with. *)
Definition matches (cond : Row -> Row -> tribool) (right : DataFrame)
  (l : Row) : list Row :=
  filter (fun r => holds (cond l r)) (rows right).

(** The output rows of a left outer join for one left row: one per match,
    or the left row with NULL right columns when nothing matches. *)
Definition left_join_row (cond : Row -> Row -> tribool) (right : DataFrame)
  (l : Row) : list Row :=
  match matches cond right l with
  | [] => [l ++ null_row (columns right)]
  | ms => map (fun r => l ++ r) ms
  end.

(** [left.join(right, cond, how='left')]: the columns of both sides. *)
Definition join_left (cond : Row -> Row -> tribool) (left right : DataFrame)
  : DataFrame :=
  mkDF (columns left ++ columns right)
       (flat_map (left_join_row cond right) (rows left)).

(** [left.join(right, cond)]: an inner join. *)
Definition join_inner (cond : Row -> Row -> tribool) (left right : DataFrame)
  : DataFrame :=
  mkDF (columns left ++ columns right)
       (flat_map (fun l => map (fun r => l ++ r) (matches cond right l))
                 (rows left)).

Definition using_cond (key : string) (l r : Row) : tribool :=
  sql_eq (get key l) (get key r).

(** The output rows of [left.join(right, [key], how='left')] for one left
    row: the key column of the left row first, then its other columns, then
    the other columns of the right row. *)
Definition left_join_using_row (key : string) (right : DataFrame) (l : Row)
  : list Row :=
  match matches (using_cond key) right l with
  | [] => [(key, get key l) :: drop_row [key] l
             ++ null_row (filter (fun c => negb (mem c [key])) (columns right))]
  | ms => map (fun r => (key, get key l) :: drop_row [key] l ++ drop_row [key] r) ms
  end.

Definition join_left_using (key : string) (left right : DataFrame)
  : DataFrame :=
  mkDF (key :: filter (fun c => negb (mem c [key])) (columns left)
            ++ filter (fun c => negb (mem c [key])) (columns right))
       (flat_map (left_join_using_row key right) (rows left)).

(** *** Grouping, ordering and ranking *)

(** The distinct elements of a list, in the order of their first
    occurrence. *)
Fixpoint distinct {A : Type} (eqb : A -> A -> bool) (l : list A) : list A :=
  match l with
  | [] => []
  | x :: t => x :: filter (fun y => negb (eqb x y)) (distinct eqb t)
  end.

Definition key_of (keys : list string) (r : Row) : list value :=
  map (fun c => get c r) keys.

Definition group_rows (keys : list string) (k : list value) (rs : list Row)
  : list Row :=
  filter (fun r => key_eqb (key_of keys r) k) rs.

(** [GROUP BY keys] with one aggregate: one row per distinct key (NULL keys
    form a group), holding the key columns and the aggregate of the group. *)
Definition groupBy_agg (keys : list string) (out : string)
  (agg : list Row -> value) (df : DataFrame) : DataFrame :=
  mkDF (keys ++ [out])
       (map (fun k => combine keys k ++ [(out, agg (group_rows keys k (rows df)))])
            (distinct key_eqb (map (key_of keys) (rows df)))).

(** [COUNT(c)] counts the rows whose cell [c] is not NULL. *)
Definition count_col (c : string) (rs : list Row) : value :=
  VInt (Z.of_nat (length (filter (fun r => negb (is_null (get c r))) rs))).

(** The non-null numbers of a column. *)
Fixpoint numbers (vs : list value) : list R :=
  match vs with
  | [] => []
  | v :: t => match num_of v with
              | Some x => x :: numbers t
              | None => numbers t
              end
  end.

Definition Rsum (xs : list R) : R := fold_right Rplus 0%R xs.

(** [AVG(c)]: the mean of the non-null cells, NULL when there is none. *)
Definition avg_col (c : string) (rs : list Row) : value :=
  match numbers (map (get c) rs) with
  | [] => VNull
  | xs => VFloat (Rsum xs / INR (length xs))
  end.

(** [MAX] of two cells, ignoring NULL. *)
Definition value_max (v m : value) : value :=
  match v, m with
  | VNull, _ => m
  | _, VNull => v
  | _, _ => if holds (sql_lt m v) then v else m
  end.

(** [MAX(c)]: NULL when every cell is NULL (or there is no row). *)
Definition max_col (c : string) (rs : list Row) : value :=
  fold_right value_max VNull (map (get c) rs).

(** The integer of a count column. *)
Definition count_of (v : value) : Z :=
  match v with VInt z => z | _ => 0%Z end.

(** A stable sort in descending order of a count column. *)
Fixpoint insert_desc (c : string) (x : Row) (l : list Row) : list Row :=
  match l with
  | [] => [x]
  | y :: t =>
      if (count_of (get c x) <? count_of (get c y))%Z
      then y :: insert_desc c x t
      else x :: y :: t
  end.

Definition sort_desc (c : string) (l : list Row) : list Row :=
  fold_right (insert_desc c) [] l.

(** The count a row is ordered by. *)
Definition cnt (c : string) (r : Row) : Z := count_of (get c r).

(** A list in descending order of the count: every row is followed only by
    rows of a smaller or equal count. *)
Fixpoint descending (c : string) (l : list Row) : Prop :=
  match l with
  | [] => True
  | x :: t => Forall (fun y => (cnt c y <= cnt c x)%Z) t /\ descending c t
  end.

Definition orderBy_desc (c : string) (df : DataFrame) : DataFrame :=
  mkDF (columns df) (sort_desc c (rows df)).

(** The rows of one window partition. *)
Definition partition_rows (part : string) (p : value) (rs : list Row)
  : list Row :=
  filter (fun r => value_eqb (get part r) p) rs.

(** [SELECT cols FROM (SELECT cols, ROW_NUMBER() OVER (PARTITION BY part
    ORDER BY c DESC) AS row_number FROM df) WHERE row_number <= n]: the first
    [n] rows of every partition in descending order of [c]. *)
Definition top_rows (n : nat) (part c : string) (rs : list Row) : list Row :=
  flat_map (fun p => firstn n (sort_desc c (partition_rows part p rs)))
           (distinct value_eqb (map (get part) rs)).

Definition row_number_le (n : nat) (part c : string) (cols : list string)
  (df : DataFrame) : DataFrame :=
  select cols (mkDF (columns df) (top_rows n part c (rows df))).

(** *** Casts and Python functions on columns *)

Definition digit_of (c : Ascii.ascii) : option Z :=
  let n := Ascii.nat_of_ascii c in
  if (48 <=? n)%nat && (n <=? 57)%nat then Some (Z.of_nat (n - 48)) else None.

(** The digits of a decimal numeral: the integer they spell without the
    point, and the number of digits after the point. *)
Fixpoint decimal_digits (s : string) (acc : Z) (k : nat) (dot any : bool)
  : option (Z * nat) :=
  match s with
  | EmptyString => if any then Some (acc, k) else None
  | String c t =>
      if Ascii.eqb c "."%char
      then (if dot then None else decimal_digits t acc k true any)
      else match digit_of c with
           | Some d =>
               decimal_digits t (10 * acc + d)%Z (if dot then S k else k) dot true
           | None => None
           end
  end.

(** The float a string spells in plain decimal notation.  The other
    spellings Spark accepts (exponents, NaN, Infinity) are outside the model
    and count as malformed. *)
Definition string_to_float (s : string) : option R :=
  let (neg, body) :=
    match s with
    | String "-"%char t => (true, t)
    | String "+"%char t => (false, t)
    | _ => (false, s)
    end in
  match decimal_digits body 0%Z 0%nat false false with
  | Some (n, k) => Some ((if neg then - IZR n else IZR n) / 10 ^ k)%R
  | None => None
  end.

(** [col.cast("float")]: NULL for NULL and for a malformed string. *)
Definition cast_float (v : value) : value :=
  match v with
  | VNull => VNull
  | VStr s => match string_to_float s with
              | Some x => VFloat x
              | None => VNull
              end
  | VInt z => VFloat (IZR z)
  | VFloat x => VFloat x
  end.

(** A cell of a float column as the Python worker receives it: [None] for
    NULL, a float otherwise. *)
Definition to_python (v : value) : option R :=
  match v with
  | VFloat x => Some x
  | _ => None
  end.

(** The cell Spark builds from the result of a Python function registered
    with [udf(f, FloatType())].  Spark does not coerce the result: a Python
    [float] becomes the float cell, and an object of any other type, a Python
    [int] included, becomes NULL (the conversion table in the sources of
    [pyspark.sql.functions.udf]: SQL type float, Python value [1 (int)]:
    [None]).  A call that raises aborts the job and yields no cell; the
    last case below is reached by no computation over the real numbers
    (lemma [distance_present]) and stands for no cell of Spark. *)
Definition udf_FloatType (result : option pynum) : value :=
  match result with
  | Some (PyFloat x) => VFloat x
  | Some (PyInt _) => VNull
  | None => VNull
  end.

(** ** The script: cleaning, enrichment and the seven queries

    The files the script reads ([airports.csv], [planes.dat], [airlines.dat])
    and the snapshot it downloads are arguments: a DataFrame of string cells
    as [spark.read.csv] builds it, and the DataFrame of the flights. *)

Definition placeholders : list value := [VStr "NaN"; VStr "N/A"].

Definition clean_dataframe (df : DataFrame) : DataFrame :=
  let df := filter_df
    (fun r => not3 (isin (get "destination_airport_iata" r) placeholders)) df in
  let df := filter_df
    (fun r => not3 (isin (get "origin_airport_iata" r) placeholders)) df in
  df.

(** [distance_udf = udf(distance, FloatType())] applied to four cells. *)
Definition distance_udf (lat1 lon1 lat2 lon2 : value) : value :=
  udf_FloatType
    (distance (to_python lat1) (to_python lon1) (to_python lat2) (to_python lon2)).

(** [df_airport] after the drop, the filter and the two casts. *)
Definition df_airport (csv : DataFrame) : DataFrame :=
  let df_airport := drop
    ["id"; "ident"; "type"; "name"; "elevation_ft"; "iso_region";
     "municipality"; "scheduled_service"; "gps_code"; "local_code";
     "home_link"; "wikipedia_link"; "keywords"; "iso_country"] csv in
  let df_airport := filter_df
    (fun r => and3 (isNotNull (get "iata_code" r)) (isNotNull (get "continent" r)))
    df_airport in
  let df_airport := withColumn "latitude_deg"
    (fun r => cast_float (get "latitude_deg" r)) df_airport in
  let df_airport := withColumn "longitude_deg"
    (fun r => cast_float (get "longitude_deg" r)) df_airport in
  df_airport.

Definition df_airport_destination (csv : DataFrame) : DataFrame :=
  withColumnRenamed "continent" "destination_airport_continent"
    (withColumnRenamed "longitude_deg" "destination_longitude_deg"
       (withColumnRenamed "latitude_deg" "destination_latitude_deg"
          (withColumnRenamed "iata_code" "destination_airport_iata"
             (df_airport csv)))).

Definition df_airport_origin (csv : DataFrame) : DataFrame :=
  withColumnRenamed "continent" "origin_airport_continent"
    (withColumnRenamed "longitude_deg" "origin_longitude_deg"
       (withColumnRenamed "latitude_deg" "origin_latitude_deg"
          (withColumnRenamed "iata_code" "origin_airport_iata"
             (df_airport csv)))).

(** The two airport join stages of [add_distance_dataframe]. *)
Definition join_destination (csv df : DataFrame) : DataFrame :=
  join_left_using "destination_airport_iata" df (df_airport_destination csv).

Definition join_origin (csv df : DataFrame) : DataFrame :=
  join_left_using "origin_airport_iata" df (df_airport_origin csv).

Definition with_distance (df : DataFrame) : DataFrame :=
  withColumn "distance"
    (fun r => distance_udf (get "origin_latitude_deg" r)
                           (get "origin_longitude_deg" r)
                           (get "destination_latitude_deg" r)
                           (get "destination_longitude_deg" r)) df.

Definition add_distance_dataframe (csv df : DataFrame) : DataFrame :=
  let df := join_destination csv df in
  let df := join_origin csv df in
  let df := with_distance df in
  df.

Definition df_aircrafts (csv : DataFrame) : DataFrame :=
  let df_aircrafts := drop ["_c1"] csv in
  let df_aircrafts :=
    withColumnRenamed "_c2" "aircraft_code"
      (withColumnRenamed "_c0" "aircraft_name" df_aircrafts) in
  filter_df (fun r => isNotNull (get "aircraft_code" r)) df_aircrafts.

Definition aircraft_cond (l r : Row) : tribool :=
  sql_eq (get "aircraft_code" l) (get "aircraft_code" r).

Definition add_aircrafts_dataframe (csv df : DataFrame) : DataFrame :=
  join_left aircraft_cond df (df_aircrafts csv).

Definition df_airlines (csv : DataFrame) : DataFrame :=
  let df_airlines := select ["_c1"; "_c3"; "_c4"] csv in
  let df_airlines :=
    withColumnRenamed "_c4" "airline_icao"
      (withColumnRenamed "_c3" "airline_iata"
         (withColumnRenamed "_c1" "airline_name" df_airlines)) in
  filter_df
    (fun r => or3 (isNotNull (get "airline_iata" r))
                  (isNotNull (get "airline_icao" r)))
    df_airlines.

Definition airline_cond (l r : Row) : tribool :=
  or3 (sql_eq (get "airline_icao" l) (get "airline_icao" r))
      (sql_eq (get "airline_iata" l) (get "airline_iata" r)).

(** The left join of [add_airlines_dataframe], before its two drops. *)
Definition join_airlines (csv df : DataFrame) : DataFrame :=
  join_left airline_cond df (df_airlines csv).

Definition add_airlines_dataframe (csv df : DataFrame) : DataFrame :=
  let df := join_airlines csv df in
  let df := drop ["airline_iata"] (drop ["airline_icao"] df) in
  df.

Definition get_active_flights (df : DataFrame) : DataFrame :=
  filter_df (fun r => sql_eq (get "on_ground" r) (VInt 0)) df.

(** The script's [df] after the three enrichment calls, and [df_active]. *)
Definition df_enriched (flights airports planes airlines : DataFrame)
  : DataFrame :=
  let df := clean_dataframe flights in
  let df := add_distance_dataframe airports df in
  let df := add_aircrafts_dataframe planes df in
  let df := add_airlines_dataframe airlines df in
  df.

Definition df_active_of (flights airports planes airlines : DataFrame)
  : DataFrame :=
  get_active_flights (df_enriched flights airports planes airlines).

(** The script's [data]: display name and code of the six continents. *)
Definition data : list (string * string) :=
  [("North America", "NA"); ("South America", "SA"); ("Europe", "EU");
   ("Asia", "AS"); ("Africa", "AF"); ("Australia", "OC")].

Definition df_continent : DataFrame :=
  mkDF ["continent_name"; "continent"]
       (map (fun p => [("continent_name", VStr (fst p)); ("continent", VStr (snd p))])
            data).

(** *** Q1 *)

Definition df_q1 (df_active : DataFrame) : DataFrame :=
  limit 1
    (orderBy_desc "nb_flights"
       (groupBy_agg ["airline_name"] "nb_flights" (count_col "airline_name")
          df_active)).

(** *** Q2 *)

Definition q2_keys : list string :=
  ["origin_airport_continent"; "destination_airport_continent"; "airline_name"].

Definition regional (r : Row) : tribool :=
  sql_eq (get "origin_airport_continent" r) (get "destination_airport_continent" r).

(** The first assignment of [df_q2]. *)
Definition df_q2_grouped (df_active : DataFrame) : DataFrame :=
  filter_df regional
    (orderBy_desc "count(airline_name)"
       (groupBy_agg q2_keys "count(airline_name)" (count_col "airline_name")
          df_active)).

(** The second assignment, registered as the view [df_q2]. *)
Definition df_q2_view (df_active : DataFrame) : DataFrame :=
  withColumnRenamed "destination_airport_continent" "continent"
    (drop ["origin_airport_continent"]
       (withColumnRenamed "count(airline_name)" "number_of_flights"
          (df_q2_grouped df_active))).

(** The SQL statement: the row of number 1 in every continent. *)
Definition df_q2_ranked (df_active : DataFrame) : DataFrame :=
  row_number_le 1 "continent" "number_of_flights"
    ["continent"; "airline_name"; "number_of_flights"] (df_q2_view df_active).

Definition continent_cond (c : string) (l r : Row) : tribool :=
  sql_eq (get c l) (get "continent" r).

Definition df_q2 (df_active : DataFrame) : DataFrame :=
  drop ["continent"]
    (join_left (continent_cond "continent") (df_q2_ranked df_active) df_continent).

(** *** Q3 *)

Definition df_q3 (df_active : DataFrame) : DataFrame :=
  filter_df
    (fun r => sql_eq (get "distance" r) (max_col "distance" (rows df_active)))
    df_active.

(** *** Q4 *)

Definition positive_distance (r : Row) : tribool :=
  sql_gt (get "distance" r) (VInt 0).

(** The SQL statement of Q4. *)
Definition df_q4_sql (df : DataFrame) : DataFrame :=
  groupBy_agg ["origin_airport_continent"] "distance_mean" (avg_col "distance")
    (filter_df positive_distance df).

Definition df_q4 (df : DataFrame) : DataFrame :=
  drop ["origin_airport_continent"; "continent"]
    (join_left (continent_cond "origin_airport_continent") (df_q4_sql df)
       df_continent).

(** *** Q5 *)

Definition df_q5 (df_active : DataFrame) : DataFrame :=
  withColumnRenamed "aircraft_name" "aircraft"
    (withColumnRenamed "count(aircraft_name)" "number_of_flights"
       (limit 1
          (orderBy_desc "count(aircraft_name)"
             (groupBy_agg ["aircraft_name"] "count(aircraft_name)"
                (count_col "aircraft_name") df_active)))).

(** *** Q6 *)

Definition q6_keys : list string := ["airline_name"; "aircraft_name"].

(** The view [df_q6]. *)
Definition df_q6_view (df : DataFrame) : DataFrame :=
  withColumnRenamed "count(airline_name)" "number_of_flights"
    (filter_df (fun r => isNotNull (get "aircraft_name" r))
       (filter_df (fun r => isNotNull (get "airline_name" r))
          (orderBy_desc "count(airline_name)"
             (groupBy_agg q6_keys "count(airline_name)"
                (count_col "airline_name") df)))).

Definition df_q6 (df : DataFrame) : DataFrame :=
  row_number_le 3 "airline_name" "number_of_flights"
    ["airline_name"; "aircraft_name"; "number_of_flights"] (df_q6_view df).

(** *** QB *)

Definition df_qb_1 (df : DataFrame) : DataFrame :=
  filter_df (fun r => isNotNull (get "origin_airport_iata" r))
    (groupBy_agg ["origin_airport_iata"] "nb_departures" (count_col "id") df).

Definition df_qb_2 (df : DataFrame) : DataFrame :=
  filter_df (fun r => isNotNull (get "destination_airport_iata" r))
    (groupBy_agg ["destination_airport_iata"] "nb_arrivals" (count_col "id") df).

Definition qb_cond (l r : Row) : tribool :=
  sql_eq (get "origin_airport_iata" l) (get "destination_airport_iata" r).

(** [abs(a - b)] on integer cells; NULL when an operand is NULL. *)
Definition abs_minus (a b : value) : value :=
  match a, b with
  | VInt x, VInt y => VInt (Z.abs (x - y))
  | _, _ => VNull
  end.

(** The view [df_qb]: one row per airport of the inner join. *)
Definition df_qb_view (df : DataFrame) : DataFrame :=
  withColumnRenamed "destination_airport_iata" "airport_iata"
    (drop ["origin_airport_iata"; "nb_departures"; "nb_arrivals"]
       (withColumn "difference"
          (fun r => abs_minus (get "nb_departures" r) (get "nb_arrivals" r))
          (join_inner qb_cond (df_qb_1 df) (df_qb_2 df)))).

Definition df_qb (df : DataFrame) : DataFrame :=
  let view := df_qb_view df in
  filter_df
    (fun r => sql_eq (get "difference" r) (max_col "difference" (rows view)))
    view.

(** The output rows of [add_airlines_dataframe] for one flight: the rows of
    the left join without the columns of the two names. *)
Definition airline_rows (csv : DataFrame) (l : Row) : list Row :=
  map (drop_row ["airline_iata"])
      (map (drop_row ["airline_icao"])
           (left_join_row airline_cond (df_airlines csv) l)).

(** ** Definitions the statements use *)

(** An airport code that is present and is neither of the two literal
    placeholders [NaN] and [N/A]. *)
Definition usable_code (v : value) : bool :=
  match v with
  | VNull => false
  | VStr s => negb (String.eqb s "NaN") && negb (String.eqb s "N/A")
  | VInt _ | VFloat _ => true
  end.

(** A flight record both of whose airport codes are usable. *)
Definition usable_flight (r : Row) : bool :=
  usable_code (get "destination_airport_iata" r)
  && usable_code (get "origin_airport_iata" r).

(** The display name of a continent code in [data]; NULL for any other
    cell. *)
Definition continent_name (k : value) : value :=
  match k with
  | VStr s => match find (fun p => String.eqb s (snd p)) data with
              | Some p => VStr (fst p)
              | None => VNull
              end
  | _ => VNull
  end.

(** The two cells the join with [df_continent] appends to a row whose
    continent cell is [k]. *)
Definition continent_cells (k : value) : Row :=
  match continent_name k with
  | VNull => null_row (columns df_continent)
  | n => [("continent_name", n); ("continent", k)]
  end.

(** The number in the distance cell of a row. *)
Definition distance_of (r : Row) : R :=
  match num_of (get "distance" r) with
  | Some x => x
  | None => 0%R
  end.

(** The sum of the distances of a list of rows. *)
Fixpoint total_distance (g : list Row) : R :=
  match g with
  | [] => 0%R
  | r :: t => (distance_of r + total_distance t)%R
  end.

(** The arithmetic mean of the distances of a list of rows. *)
Definition mean_distance (g : list Row) : R :=
  (total_distance g / INR (length g))%R.

(** The rows of origin continent [k] whose distance is greater than 0. *)
Definition positive_rows_of (k : value) (rs : list Row) : list Row :=
  filter (fun r => holds (positive_distance r)
                   && value_eqb (get "origin_airport_continent" r) k) rs.

(** The origin continents that have a row of distance greater than 0. *)
Definition positive_continents (rs : list Row) : list value :=
  distinct value_eqb
    (map (get "origin_airport_continent")
         (filter (fun r => holds (positive_distance r)) rs)).

(** A column of floats: every cell is NULL or a float. *)
Definition float_column (c : string) (rs : list Row) : Prop :=
  forall r, In r rs -> get c r = VNull \/ exists x, get c r = VFloat x.

(** The flights with an identifier that leave, and that reach, an airport. *)
Definition departures (a : value) (rs : list Row) : Z :=
  Z.of_nat (length (filter (fun r => value_eqb (get "origin_airport_iata" r) a
                                     && negb (is_null (get "id" r))) rs)).

Definition arrivals (a : value) (rs : list Row) : Z :=
  Z.of_nat (length (filter (fun r => value_eqb (get "destination_airport_iata" r) a
                                     && negb (is_null (get "id" r))) rs)).

Definition imbalance (a : value) (rs : list Row) : Z :=
  Z.abs (departures a rs - arrivals a rs).

(** The airports that are the origin of a row and the destination of a row,
    in the order of their first occurrence as an origin. *)
Definition two_way_airports (rs : list Row) : list value :=
  filter (fun a => negb (is_null a)
                   && existsb (value_eqb a)
                        (map (get "destination_airport_iata") rs))
         (distinct value_eqb (map (get "origin_airport_iata") rs)).

(** The row of QB for an airport. *)
Definition qb_row (rs : list Row) (a : value) : Row :=
  [("airport_iata", a); ("difference", VInt (imbalance a rs))].

(** The number of rows of a given airline and aircraft. *)
Definition flights_of (a b : value) (rs : list Row) : Z :=
  Z.of_nat (length (filter (fun r => value_eqb (get "airline_name" r) a
                                     && value_eqb (get "aircraft_name" r) b) rs)).

(** The row of the view of Q6 for an airline and an aircraft. *)
Definition q6_row (rs : list Row) (a b : value) : Row :=
  [("airline_name", a); ("aircraft_name", b);
   ("number_of_flights", VInt (flights_of a b rs))].

(** The rows of airline [a] that leave and reach continent [c]. *)
Definition regional_flights (c a : value) (rs : list Row) : list Row :=
  filter (fun r => value_eqb (get "origin_airport_continent" r) c
                   && (value_eqb (get "destination_airport_continent" r) c
                       && value_eqb (get "airline_name" r) a)) rs.

(** What [COUNT(airline_name)] gives for that group: the number of its rows,
    and 0 for the group of the rows without an airline name. *)
Definition named_count (c a : value) (rs : list Row) : Z :=
  if is_null a then 0%Z else Z.of_nat (length (regional_flights c a rs)).

(** The row of the view of Q2 for a continent and an airline. *)
Definition q2_row (rs : list Row) (c a : value) : Row :=
  [("continent", c); ("airline_name", a);
   ("number_of_flights", VInt (named_count c a rs))].

(** The row of Q2 for a row of its ranking. *)
Definition q2_result (v : Row) : Row :=
  [("airline_name", get "airline_name" v);
   ("number_of_flights", get "number_of_flights" v);
   ("continent_name", continent_name (get "continent" v))].

(** A row of continent [c] at both ends. *)
Definition regional_in (c : value) (r : Row) : Prop :=
  get "origin_airport_continent" r = c /\
  get "destination_airport_continent" r = c /\ c <> VNull.

(** What a left outer join stage does to one flight [l], where [ms] are the
    catalog rows that match it and [out] its output rows: one output row per
    match, and one when nothing matches; the output rows keep the attributes
    of the flight that [kept] admits; when nothing matches, every attribute
    that the flight did not have is NULL. *)
Definition left_outer (ms : list Row) (kept : string -> Prop) (l : Row)
  (out : list Row) : Prop :=
  length out = Nat.max 1 (length ms) /\
  (forall o c, In o out -> In c (map fst l) -> kept c -> get c o = get c l) /\
  (ms = [] -> forall o c, In o out -> ~ In c (map fst l) -> get c o = VNull).

Definition every_attribute (c : string) : Prop := True.

Definition not_airline_code (c : string) : Prop :=
  c <> "airline_icao" /\ c <> "airline_iata".

(** What [COUNT(c)] gives for the group of the rows whose cell [c] is [a]:
    the number of these rows, and 0 for the group of the rows without a
    cell [c]. *)
Definition count_named (c : string) (a : value) (rs : list Row) : Z :=
  if is_null a then 0%Z else Z.of_nat (length (partition_rows c a rs)).

(** Every row of the DataFrame has a column [c]. *)
Definition has_column (c : string) (df : DataFrame) : Prop :=
  Forall (fun r => In c (map fst r)) (rows df).

(** The rows of the DataFrame have the columns of its schema, in their
    order. *)
Definition well_formed (df : DataFrame) : Prop :=
  Forall (fun r => map fst r = columns df) (rows df).

(** A row without a column [c]. *)
Definition fresh (c : string) (r : Row) : Prop := ~ In c (map fst r).

(** The row [withColumnRenamed old new] builds from a row. *)
Definition rename_row (old new : string) (r : Row) : Row :=
  map (fun p => (rename old new (fst p), snd p)) r.

(** The row [withColumn name e] builds from a row [r] of a DataFrame of
    columns [cols], where [v] is the new cell. *)
Definition with_cell (cols : list string) (name : string) (v : value)
  (r : Row) : Row :=
  if mem name cols
  then map (fun p => if String.eqb (fst p) name then (name, v) else p) r
  else r ++ [(name, v)].

(** The row of [df_airlines] for a line of [airlines.dat]. *)
Definition airline_entry (r0 : Row) : Row :=
  [("airline_name", get "_c1" r0); ("airline_iata", get "_c3" r0);
   ("airline_icao", get "_c4" r0)].

(** A code of a flight is the code of a catalog line: the line has a code
    and the flight has the same. *)
Definition same_code (flight_code line_code : value) : bool :=
  negb (is_null line_code) && value_eqb flight_code line_code.

(** A flight and a line of [airlines.dat] have the same ICAO code, or the
    same IATA code. *)
Definition same_airline (l r0 : Row) : bool :=
  same_code (get "airline_icao" l) (get "_c4" r0)
  || same_code (get "airline_iata" l) (get "_c3" r0).

(** A flight and a line of [planes.dat] have the same aircraft code. *)
Definition same_aircraft (l r0 : Row) : bool :=
  same_code (get "aircraft_code" l) (get "_c2" r0).

(** The row of [df_aircrafts] for a line of [planes.dat]. *)
Definition aircraft_entry (r0 : Row) : Row :=
  [("aircraft_name", get "_c0" r0); ("aircraft_code", get "_c2" r0)].

(** [planes.dat] read without header: three columns. *)
Definition planes_file (csv : DataFrame) : Prop :=
  columns csv = ["_c0"; "_c1"; "_c2"] /\ well_formed csv.

(** [airports.csv] read with its header: the rows follow the header, which
    has the four columns the script keeps and none of the names the script
    gives them for the two roles. *)
Definition airport_file (csv : DataFrame) : Prop :=
  well_formed csv /\
  (forall c, In c ["iata_code"; "latitude_deg"; "longitude_deg"; "continent"] ->
             In c (columns csv)) /\
  (forall c, In c ["destination_airport_iata"; "destination_latitude_deg";
                   "destination_longitude_deg"; "destination_airport_continent";
                   "origin_airport_iata"; "origin_latitude_deg";
                   "origin_longitude_deg"; "origin_airport_continent"] ->
             ~ In c (columns csv)).

(** A line of [airports.csv] that [df_airport] keeps. *)
Definition listed_airport (r0 : Row) : Prop :=
  get "iata_code" r0 <> VNull /\ get "continent" r0 <> VNull.

(** The cells of a row [r] under the names of a role are those of the line
    [r0] of [airports.csv], the coordinates cast to floats. *)
Definition airport_cells (key lat lon cont : string) (r r0 : Row) : Prop :=
  get key r = get "iata_code" r0 /\
  get lat r = cast_float (get "latitude_deg" r0) /\
  get lon r = cast_float (get "longitude_deg" r0) /\
  get cont r = get "continent" r0.

(** ** Fixtures *)

(** Four European departures: distances 1200, the sentinel -1, 0 and NULL. *)
Definition q4_row (d : value) : Row :=
  [("origin_airport_continent", VStr "EU"); ("distance", d)].

Definition q4_fixture : DataFrame :=
  mkDF ["origin_airport_continent"; "distance"]
       [q4_row (VFloat 1200); q4_row (VFloat (-1)); q4_row (VFloat 0);
        q4_row VNull].

(** One airborne flight from Paris to New York, and catalogs that know
    Paris, the aircraft and the airline but not the destination airport. *)
Definition flight_columns : list string :=
  ["id"; "origin_airport_iata"; "destination_airport_iata"; "aircraft_code";
   "airline_iata"; "airline_icao"; "on_ground"].

Definition flight (id origin destination aircraft iata icao : value) (g : Z)
  : Row :=
  [("id", id); ("origin_airport_iata", origin);
   ("destination_airport_iata", destination); ("aircraft_code", aircraft);
   ("airline_iata", iata); ("airline_icao", icao); ("on_ground", VInt g)].

Definition paris_new_york : Row :=
  flight (VStr "f1") (VStr "CDG") (VStr "JFK") (VStr "B77W") (VStr "AF")
         (VStr "AFR") 0.

Definition one_flight : DataFrame := mkDF flight_columns [paris_new_york].

Definition airport_columns : list string :=
  ["id"; "name"; "latitude_deg"; "longitude_deg"; "continent"; "iata_code"].

Definition airport (id name lat lon continent iata : string) : Row :=
  [("id", VStr id); ("name", VStr name); ("latitude_deg", VStr lat);
   ("longitude_deg", VStr lon); ("continent", VStr continent);
   ("iata_code", VStr iata)].

Definition paris_only : DataFrame :=
  mkDF airport_columns
       [airport "2218" "Charles de Gaulle" "49.0128" "2.55" "EU" "CDG"].

Definition planes_csv : DataFrame :=
  mkDF ["_c0"; "_c1"; "_c2"]
       [[("_c0", VStr "Boeing 777-300ER"); ("_c1", VStr "77W");
         ("_c2", VStr "B77W")]].

Definition airlines_csv : DataFrame :=
  mkDF ["_c0"; "_c1"; "_c2"; "_c3"; "_c4"]
       [[("_c0", VStr "137"); ("_c1", VStr "Air France"); ("_c2", VNull);
         ("_c3", VStr "AF"); ("_c4", VStr "AFR")]].

(** Three active rows of distances 5, NULL and 7. *)
Definition q3_fixture : DataFrame :=
  mkDF ["id"; "distance"]
       [[("id", VStr "a"); ("distance", VFloat 5)];
        [("id", VStr "b"); ("distance", VNull)];
        [("id", VStr "c"); ("distance", VFloat 7)]].

(** Airport X: 3 departures and 1 arrival; airport Y: 1 and 3. *)
Definition qb_flight (id origin destination : string) : Row :=
  [("id", VStr id); ("origin_airport_iata", VStr origin);
   ("destination_airport_iata", VStr destination)].

Definition qb_fixture : DataFrame :=
  mkDF ["id"; "origin_airport_iata"; "destination_airport_iata"]
       [qb_flight "1" "X" "Y"; qb_flight "2" "X" "Y"; qb_flight "3" "X" "Y";
        qb_flight "4" "Y" "X"].

(** One airborne flight from Paris to Frankfurt of an airline that
    [airlines_csv] does not list, and a catalog with both airports. *)
Definition paris_frankfurt : Row :=
  flight (VStr "f2") (VStr "CDG") (VStr "FRA") (VStr "B77W") (VStr "ZZ")
         (VStr "ZZZ") 0.

Definition unlisted_airline : DataFrame := mkDF flight_columns [paris_frankfurt].

Definition paris_frankfurt_airports : DataFrame :=
  mkDF airport_columns
       [airport "2218" "Charles de Gaulle" "49.0128" "2.55" "EU" "CDG";
        airport "2212" "Frankfurt am Main" "50.0333" "8.5706" "EU" "FRA"].

Definition q2_fixture : DataFrame :=
  df_active_of unlisted_airline paris_frankfurt_airports planes_csv airlines_csv.

(** A catalog that lists Frankfurt twice. *)
Definition frankfurt_twice : DataFrame :=
  mkDF airport_columns
       [airport "2212" "Frankfurt am Main" "50.0333" "8.5706" "EU" "FRA";
        airport "9001" "Frankfurt Main heliport" "50.05" "8.57" "EU" "FRA"].

(** Three airborne flights from Paris to Frankfurt: two of the airline that
    [airlines_csv] does not list, one of Air France. *)
Definition mostly_unlisted : DataFrame :=
  mkDF flight_columns
       [paris_frankfurt;
        flight (VStr "f3") (VStr "CDG") (VStr "FRA") (VStr "B77W") (VStr "ZZ")
               (VStr "ZZZ") 0;
        flight (VStr "f4") (VStr "CDG") (VStr "FRA") (VStr "B77W") (VStr "AF")
               (VStr "AFR") 0].

Definition q2_fixture_mixed : DataFrame :=
  df_active_of mostly_unlisted paris_frankfurt_airports planes_csv airlines_csv.

(** Six records: one with two airport codes, four without a code or with a
    placeholder at one end, and one whose code is [nan] in lower case. *)
Definition clean_fixture : DataFrame :=
  mkDF flight_columns
       [flight (VStr "k1") (VStr "CDG") (VStr "JFK") (VStr "B77W") (VStr "AF")
               (VStr "AFR") 0;
        flight (VStr "k2") (VStr "CDG") (VStr "N/A") (VStr "B77W") (VStr "AF")
               (VStr "AFR") 0;
        flight (VStr "k3") (VStr "NaN") (VStr "JFK") (VStr "B77W") (VStr "AF")
               (VStr "AFR") 0;
        flight (VStr "k4") (VStr "CDG") VNull (VStr "B77W") (VStr "AF")
               (VStr "AFR") 1;
        flight (VStr "k5") VNull (VStr "JFK") (VStr "B77W") (VStr "AF")
               (VStr "AFR") 1;
        flight (VStr "k6") (VStr "nan") (VStr "JFK") (VStr "B77W") (VStr "AF")
               (VStr "AFR") 0].

(** Departures from Europe of distances 1200, 800, the sentinel -1, 0 and
    NULL, and one departure from Asia of distance 500. *)
Definition q4_means_fixture : DataFrame :=
  mkDF ["origin_airport_continent"; "distance"]
       [q4_row (VFloat 1200); q4_row (VFloat (-1)); q4_row (VFloat 800);
        q4_row (VFloat 0); q4_row VNull;
        [("origin_airport_continent", VStr "AS"); ("distance", VFloat 500)]].

(** ** The name of the snapshot file: [get_file_name] *)

(** The fields of [datetime.now()] that [get_file_name] reads. *)
Record datetime : Type := mkDatetime {
  year : N;
  month : N;
  day : N;
  hour : N;
  minute : N;
  second : N;
  microsecond : N
}.

(** What an f-string field prints for a non-negative [int]: its decimal
    digits, without padding. *)
Definition str (n : N) : string :=
  DecimalString.NilEmpty.string_of_uint (N.to_uint n).

(** [get_file_name], nested in [get_and_write_flights]; the clock is the
    argument [now]. *)
Definition get_file_name (now : datetime) : string :=
  let year := year now in
  let month := month now in
  let day := day now in
  let hour := hour now in
  let minute := minute now in
  let second := second now in
  let milisecond := (microsecond now / 10000)%N in
  ("Flights/rawzone/tech_year=" ++ str year
   ++ "/tech_month=" ++ str year ++ "-" ++ str month
   ++ "/tech_day=" ++ str year ++ "-" ++ str month ++ "-" ++ str day
   ++ "/flights" ++ str year ++ str month ++ str day ++ str hour
   ++ str minute ++ str second ++ str milisecond ++ ".csv")%string.

Definition is_digit (c : Ascii.ascii) : bool :=
  match digit_of c with Some _ => true | None => false end.

(** A string of decimal digits. *)
Fixpoint all_digits (s : string) : bool :=
  match s with
  | EmptyString => true
  | String c t => is_digit c && all_digits t
  end.

(** A string that does not start with a digit. *)
Definition no_digit_first (s : string) : Prop :=
  match s with
  | EmptyString => True
  | String c _ => is_digit c = false
  end.
(** ** Facts on the real functions *)

Section RealFacts.
Local Open Scope R_scope.

Lemma sin_half_sq (t : R) : sin (t / 2) ^ 2 = hav t.
Proof.
  unfold hav.
  replace t with (2 * (t / 2)) at 2 by field.
  rewrite cos_2a_sin. field.
Qed.

Lemma distance_a_hav (lat1 lon1 lat2 lon2 : R) :
  distance_a lat1 lon1 lat2 lon2 =
  hav (lat2 - lat1) + cos lat1 * cos lat2 * hav (lon2 - lon1).
Proof. unfold distance_a. cbv zeta. now rewrite !sin_half_sq. Qed.

(** [a] is half of one minus the inner product of two unit vectors. *)
Lemma distance_a_range (lat1 lon1 lat2 lon2 : R) :
  0 <= distance_a lat1 lon1 lat2 lon2 <= 1.
Proof.
  rewrite distance_a_hav. unfold hav.
  rewrite cos_minus.
  pose proof (sin2_cos2 lat1) as H1. pose proof (sin2_cos2 lat2) as H2.
  pose proof (COS_bound (lon2 - lon1)) as Hk.
  unfold Rsqr in H1, H2.
  set (s1 := sin lat1) in *. set (c1 := cos lat1) in *.
  set (s2 := sin lat2) in *. set (c2 := cos lat2) in *.
  set (k := cos (lon2 - lon1)) in *.
  assert (Hcs : (s1 * s2 + c1 * c2 * k) ^ 2 <= 1).
  { assert (Hk2 : k * k <= 1) by nra.
    assert (Hc2 : 0 <= c2 * c2) by nra.
    assert (Hs2 : 0 <= s2 * s2) by nra.
    assert (Hx : 0 <= (s1 * c2 * k - c1 * s2) ^ 2) by apply pow2_ge_0.
    assert (Hy : (s1 * s2 + c1 * c2 * k) ^ 2 + (s1 * c2 * k - c1 * s2) ^ 2
                 = (s1 * s1 + c1 * c1) * (s2 * s2 + c2 * c2 * (k * k))) by ring.
    rewrite H1 in Hy. nra. }
  assert (Hb : -1 <= s1 * s2 + c1 * c2 * k <= 1) by nra.
  lra.
Qed.

End RealFacts.

(** ** The function [distance] *)

Section DistanceFacts.
Local Open Scope R_scope.

Lemma hav_opp (t : R) : hav (- t) = hav t.
Proof. unfold hav. now rewrite cos_neg. Qed.

Lemma distance_a_sym (lat1 lon1 lat2 lon2 : R) :
  distance_a lat1 lon1 lat2 lon2 = distance_a lat2 lon2 lat1 lon1.
Proof.
  rewrite !distance_a_hav.
  replace (lat1 - lat2) with (- (lat2 - lat1)) by ring.
  replace (lon1 - lon2) with (- (lon2 - lon1)) by ring.
  rewrite !hav_opp. ring.
Qed.

Lemma py_sqrt_defined (x : R) :
  0 <= x -> PyMath.sqrt x = Some (R_sqrt.sqrt x).
Proof. intros Hx. unfold PyMath.sqrt. destruct (Rle_dec 0 x); [reflexivity|lra]. Qed.

(** Over the real numbers, with four floats neither square root raises
    and the result is the float
    [6373 * (2 * atan2 (sqrt a) (sqrt (1 - a)))]. *)
Lemma distance_present (lat1 lon1 lat2 lon2 : R) :
  distance (Some lat1) (Some lon1) (Some lat2) (Some lon2) =
  let a := distance_a (PyMath.radians lat1) (PyMath.radians lon1)
                      (PyMath.radians lat2) (PyMath.radians lon2) in
  Some (PyFloat (6373 * (2 * PyMath.atan2 (R_sqrt.sqrt a) (R_sqrt.sqrt (1 - a))))).
Proof.
  unfold distance. cbv zeta.
  pose proof (distance_a_range (PyMath.radians lat1) (PyMath.radians lon1)
                (PyMath.radians lat2) (PyMath.radians lon2)) as [H0 H1].
  rewrite (py_sqrt_defined _ H0).
  rewrite py_sqrt_defined by lra.
  reflexivity.
Qed.

End DistanceFacts.

(** C3.  With an absent argument [distance] returns the Python int [-1],
    whatever the other three arguments are: an int, not the float [-1.0]
    that its annotation [-> float] announces.  No float is equal to that
    result, and the column built from it under [FloatType()] holds NULL. *)
Theorem distance_of_absent_input :
  (forall a b c : option R,
     distance None a b c = Some (PyInt (-1)) /\
     distance a None b c = Some (PyInt (-1)) /\
     distance a b None c = Some (PyInt (-1)) /\
     distance a b c None = Some (PyInt (-1))) /\
  (forall (a b c : option R) (x : R),
     distance None a b c <> Some (PyFloat x) /\
     distance a None b c <> Some (PyFloat x) /\
     distance a b None c <> Some (PyFloat x) /\
     distance a b c None <> Some (PyFloat x)) /\
  (forall a b c : option R,
     udf_FloatType (distance None a b c) = VNull /\
     udf_FloatType (distance a None b c) = VNull /\
     udf_FloatType (distance a b None c) = VNull /\
     udf_FloatType (distance a b c None) = VNull).
Proof.
  assert (H : forall a b c : option R,
            distance None a b c = Some (PyInt (-1)) /\
            distance a None b c = Some (PyInt (-1)) /\
            distance a b None c = Some (PyInt (-1)) /\
            distance a b c None = Some (PyInt (-1))).
  { intros a b c. split; [|split; [|split]].
    - reflexivity.
    - destruct a; reflexivity.
    - destruct a, b; reflexivity.
    - destruct a, b, c; reflexivity. }
  split; [exact H|]. split.
  - intros a b c x. destruct (H a b c) as [-> [-> [-> ->]]].
    repeat split; discriminate.
  - intros a b c. destruct (H a b c) as [-> [-> [-> ->]]].
    repeat split.
Qed.

(** C9.  [distance] is symmetric: with four floats, exchanging the two
    points does not change the result. *)
Theorem distance_symmetric :
  forall lat1 lon1 lat2 lon2 : R,
    distance (Some lat1) (Some lon1) (Some lat2) (Some lon2) =
    distance (Some lat2) (Some lon2) (Some lat1) (Some lon1).
Proof.
  intros lat1 lon1 lat2 lon2.
  rewrite !distance_present. cbv zeta.
  now rewrite (distance_a_sym (PyMath.radians lat1)).
Qed.

(** ** Lists: filters, distinct keys, the descending sort *)


Lemma value_eqb_eq (a b : value) : value_eqb a b = true <-> a = b.
Proof.
  unfold value_eqb. destruct (value_eq_dec a b); split; congruence.
Qed.

Lemma value_eqb_refl (a : value) : value_eqb a a = true.
Proof. now apply value_eqb_eq. Qed.

Lemma value_eqb_neq (a b : value) : value_eqb a b = false <-> a <> b.
Proof.
  unfold value_eqb. destruct (value_eq_dec a b); split; congruence.
Qed.

Lemma key_eqb_eq (a b : list value) : key_eqb a b = true <-> a = b.
Proof.
  unfold key_eqb. destruct (list_eq_dec value_eq_dec a b); split; congruence.
Qed.

Lemma filter_filter {A : Type} (p q : A -> bool) (l : list A) :
  filter q (filter p l) = filter (fun x => p x && q x) l.
Proof.
  induction l as [|x l IH]; simpl; [reflexivity|].
  destruct (p x); simpl; [destruct (q x)|]; now rewrite IH.
Qed.

Lemma filter_all {A : Type} (p : A -> bool) (l : list A) :
  (forall x, In x l -> p x = true) -> filter p l = l.
Proof.
  induction l as [|x l IH]; simpl; intros H; [reflexivity|].
  rewrite (H x) by now left. f_equal. apply IH. intros y Hy. apply H. now right.
Qed.

Lemma filter_none {A : Type} (p : A -> bool) (l : list A) :
  (forall x, In x l -> p x = false) -> filter p l = [].
Proof.
  induction l as [|x l IH]; simpl; intros H; [reflexivity|].
  rewrite (H x) by now left. apply IH. intros y Hy. apply H. now right.
Qed.

Lemma filter_length_le {A : Type} (p : A -> bool) (l : list A) :
  (length (filter p l) <= length l)%nat.
Proof.
  induction l as [|x l IH]; simpl; [lia|]. destruct (p x); simpl; lia.
Qed.

Lemma filter_flat_map {K : Type} (keep : Row -> bool)
  (expand : K -> list Row) (ks : list K) :
  filter keep (flat_map expand ks)
  = flat_map (fun k => filter keep (expand k)) ks.
Proof.
  induction ks as [|k ks IH]; cbn [flat_map]; [reflexivity|].
  rewrite filter_app. now f_equal.
Qed.

Lemma map_filter_comm {A B : Type} (f : A -> B) (p : B -> bool) (l : list A) :
  filter p (map f l) = map f (filter (fun x => p (f x)) l).
Proof.
  induction l as [|x l IH]; simpl; [reflexivity|].
  destruct (p (f x)); simpl; now rewrite IH.
Qed.

Section Distinct.
Context {A : Type} (eqb : A -> A -> bool).
Hypothesis eqb_eq : forall x y, eqb x y = true <-> x = y.

Lemma distinct_In (l : list A) (x : A) : In x (distinct eqb l) <-> In x l.
Proof.
  induction l as [|y l IH]; simpl; [tauto|].
  rewrite filter_In, IH. split.
  - intros [H|[H _]]; auto.
  - intros [H|H]; [now left|].
    destruct (eqb y x) eqn:E.
    + left. now apply eqb_eq.
    + right. now split.
Qed.

Lemma distinct_NoDup (l : list A) : NoDup (distinct eqb l).
Proof.
  induction l as [|y l IH]; simpl; constructor.
  - rewrite filter_In. intros [_ H].
    assert (E : eqb y y = true) by now apply eqb_eq.
    rewrite E in H. discriminate.
  - now apply NoDup_filter.
Qed.

(** Among distinct keys, the keys equal to [x] are [x] alone, if at all. *)
Lemma filter_eq_NoDup (l : list A) (x : A) :
  NoDup l -> In x l -> filter (fun y => eqb y x) l = [x].
Proof.
  induction l as [|y l IH]; simpl; intros Hnd Hin; [contradiction|].
  inversion_clear Hnd as [|? ? Hy Hl].
  destruct (eqb y x) eqn:E.
  - apply eqb_eq in E. subst y. f_equal.
    apply filter_none. intros z Hz.
    destruct (eqb z x) eqn:E'; [|reflexivity].
    apply eqb_eq in E'. subst z. contradiction.
  - destruct Hin as [->|Hin]; [|now apply IH].
    assert (E' : eqb x x = true) by now apply eqb_eq. congruence.
Qed.

Lemma filter_eq_absent (l : list A) (x : A) :
  ~ In x l -> filter (fun y => eqb y x) l = [].
Proof.
  intros Hx. apply filter_none. intros z Hz.
  destruct (eqb z x) eqn:E; [|reflexivity].
  apply eqb_eq in E. subst z. contradiction.
Qed.

End Distinct.

(** *** The sort *)

Section Sort.
Variable c : string.

Lemma insert_desc_perm (x : Row) (l : list Row) :
  Permutation (insert_desc c x l) (x :: l).
Proof.
  induction l as [|y l IH]; simpl; [reflexivity|].
  destruct (count_of (get c x) <? count_of (get c y))%Z; [|reflexivity].
  rewrite IH. apply perm_swap.
Qed.

Lemma sort_desc_perm (l : list Row) : Permutation (sort_desc c l) l.
Proof.
  induction l as [|x l IH]; simpl; [reflexivity|].
  rewrite insert_desc_perm. now constructor.
Qed.

Lemma sort_desc_In (l : list Row) (r : Row) :
  In r (sort_desc c l) <-> In r l.
Proof.
  split; apply Permutation_in;
    [apply sort_desc_perm | symmetry; apply sort_desc_perm].
Qed.

Lemma sort_desc_length (l : list Row) : length (sort_desc c l) = length l.
Proof. apply Permutation_length, sort_desc_perm. Qed.

Lemma insert_desc_descending (x : Row) (l : list Row) :
  descending c l -> descending c (insert_desc c x l).
Proof.
  induction l as [|y l IH]; simpl; intros Hl.
  - split; [constructor | exact I].
  - destruct Hl as [Hy Hl]. fold (cnt c x) (cnt c y).
    destruct (cnt c x <? cnt c y)%Z eqn:E.
    + apply Z.ltb_lt in E. simpl. split; [|now apply IH].
      rewrite Forall_forall. intros z Hz.
      apply (Permutation_in _ (insert_desc_perm x l)) in Hz.
      destruct Hz as [<-|Hz]; [lia|].
      rewrite Forall_forall in Hy. now apply Hy.
    + apply Z.ltb_ge in E. simpl. repeat split; trivial.
      constructor; [exact E|].
      rewrite Forall_forall in Hy |- *. intros z Hz.
      specialize (Hy z Hz). lia.
Qed.

Lemma sort_desc_descending (l : list Row) : descending c (sort_desc c l).
Proof.
  induction l as [|x l IH]; simpl; [exact I|].
  now apply insert_desc_descending.
Qed.

(** In a list in descending order of the column [c], the first [n] rows
    dominate the others. *)
Lemma descending_firstn (n : nat) (l : list Row) :
  descending c l ->
  forall a b, In a (firstn n l) -> In b (skipn n l) -> (cnt c b <= cnt c a)%Z.
Proof.
  revert l. induction n as [|n IH]; intros l Hl a b Ha Hb.
  - simpl in Ha. contradiction.
  - destruct l as [|x l]; simpl in *; [contradiction|].
    destruct Hl as [Hx Hl].
    destruct Ha as [<-|Ha]; [|now apply (IH l)].
    rewrite Forall_forall in Hx. apply Hx.
    rewrite <- (firstn_skipn n l). apply in_or_app. now right.
Qed.

End Sort.

(** ** [clean_dataframe] *)

Lemma value_eqb_str (s t : string) :
  value_eqb (VStr s) (VStr t) = String.eqb s t.
Proof.
  destruct (String.eqb s t) eqn:E.
  - apply String.eqb_eq in E. subst t. apply value_eqb_refl.
  - apply String.eqb_neq in E. apply value_eqb_neq. congruence.
Qed.

Lemma holds_not_isin (v : value) :
  holds (not3 (isin v placeholders)) = usable_code v.
Proof.
  unfold usable_code, isin, placeholders.
  destruct v as [|s|z|x]; cbn [not3 option_map holds existsb].
  - reflexivity.
  - rewrite !value_eqb_str.
    now destruct (String.eqb s "NaN"), (String.eqb s "N/A").
  - replace (value_eqb (VInt z) (VStr "NaN")) with false
      by (symmetry; apply value_eqb_neq; discriminate).
    replace (value_eqb (VInt z) (VStr "N/A")) with false
      by (symmetry; apply value_eqb_neq; discriminate).
    reflexivity.
  - replace (value_eqb (VFloat x) (VStr "NaN")) with false
      by (symmetry; apply value_eqb_neq; discriminate).
    replace (value_eqb (VFloat x) (VStr "N/A")) with false
      by (symmetry; apply value_eqb_neq; discriminate).
    reflexivity.
Qed.

Lemma clean_dataframe_rows (df : DataFrame) :
  rows (clean_dataframe df) = filter usable_flight (rows df).
Proof.
  unfold clean_dataframe, filter_df. simpl.
  rewrite filter_filter. apply filter_ext. intros r.
  unfold usable_flight. now rewrite !holds_not_isin.
Qed.

(** C4.  [clean_dataframe] returns, in their order and with their
    multiplicity, exactly the records whose origin and destination codes are
    present and are neither [NaN] nor [N/A]; the columns are unchanged, no
    record is added and every surviving record is a record of the input,
    equal to it in every attribute.  Of six records that differ in their
    codes it keeps the one with two codes and the one whose code is [nan] in
    lower case, and removes those with [N/A], [NaN] or no code at one end. *)
Theorem clean_dataframe_spec :
  (forall df : DataFrame,
     columns (clean_dataframe df) = columns df /\
     rows (clean_dataframe df) = filter usable_flight (rows df) /\
     (length (rows (clean_dataframe df)) <= length (rows df))%nat /\
     (forall r, In r (rows (clean_dataframe df)) <->
                In r (rows df) /\ usable_flight r = true)) /\
  (forall s : string,
     usable_code (VStr s) = true <-> s <> "NaN" /\ s <> "N/A") /\
  usable_code VNull = false /\
  map (get "id") (rows (clean_dataframe clean_fixture))
  = [VStr "k1"; VStr "k6"].
Proof.
  split; [|split; [|split]].
  - intros df. split; [reflexivity|]. split; [apply clean_dataframe_rows|].
    rewrite clean_dataframe_rows. split.
    + apply filter_length_le.
    + intros r. apply filter_In.
  - intros s. cbn [usable_code].
    rewrite andb_true_iff, !negb_true_iff, !String.eqb_neq. reflexivity.
  - reflexivity.
  - vm_compute. reflexivity.
Qed.

(** ** The join with [df_continent] and the grouping on one column *)

Lemma continent_matches (c : string) (l : Row) :
  matches (continent_cond c) df_continent l =
  match continent_name (get c l) with
  | VNull => []
  | n => [[("continent_name", n); ("continent", get c l)]]
  end.
Proof.
  unfold matches, continent_cond. generalize (get c l). intros k.
  destruct k as [|s|z|x]; try reflexivity.
  destruct (string_dec s "NA") as [->|N1]; [reflexivity|].
  destruct (string_dec s "SA") as [->|N2]; [reflexivity|].
  destruct (string_dec s "EU") as [->|N3]; [reflexivity|].
  destruct (string_dec s "AS") as [->|N4]; [reflexivity|].
  destruct (string_dec s "AF") as [->|N5]; [reflexivity|].
  destruct (string_dec s "OC") as [->|N6]; [reflexivity|].
  assert (E : forall t, s <> t -> value_eqb (VStr s) (VStr t) = false)
    by (intros t Ht; apply value_eqb_neq; congruence).
  assert (F : forall t, s <> t -> String.eqb s t = false)
    by (intros t Ht; now apply String.eqb_neq).
  cbn -[value_eqb].
  rewrite !E, !F by assumption. reflexivity.
Qed.

(** The left join with [df_continent] yields one row per left row. *)
Lemma continent_join_row (c : string) (l : Row) :
  left_join_row (continent_cond c) df_continent l =
  [l ++ continent_cells (get c l)].
Proof.
  unfold left_join_row, continent_cells. rewrite continent_matches.
  now destruct (continent_name (get c l)).
Qed.

Lemma continent_join_rows (c : string) (left : DataFrame) :
  rows (join_left (continent_cond c) left df_continent) =
  map (fun l => l ++ continent_cells (get c l)) (rows left).
Proof.
  unfold join_left. simpl.
  induction (rows left) as [|l t IH]; simpl; [reflexivity|].
  now rewrite continent_join_row, IH.
Qed.

Lemma distinct_singleton_keys {A : Type} (f : A -> value) (l : list A) :
  distinct key_eqb (map (fun x => [f x]) l) =
  map (fun v => [v]) (distinct value_eqb (map f l)).
Proof.
  induction l as [|x l IH]; simpl; [reflexivity|].
  f_equal. rewrite IH, map_filter_comm. f_equal.
  apply filter_ext. intros v. f_equal.
  unfold key_eqb, value_eqb.
  destruct (list_eq_dec value_eq_dec [f x] [v]) as [E|E],
           (value_eq_dec (f x) v) as [E'|E']; try reflexivity.
  - congruence.
  - subst v. congruence.
Qed.

Lemma group_rows_single (key : string) (v : value) (rs : list Row) :
  group_rows [key] [v] rs = partition_rows key v rs.
Proof.
  unfold group_rows, partition_rows. apply filter_ext. intros r. simpl.
  unfold key_eqb, value_eqb.
  destruct (list_eq_dec value_eq_dec [get key r] [v]) as [E|E],
           (value_eq_dec (get key r) v) as [E'|E']; congruence.
Qed.

(** [GROUP BY] on one column: one row per distinct cell of the column. *)
Lemma groupBy_agg_single (key out : string) (agg : list Row -> value)
  (df : DataFrame) :
  rows (groupBy_agg [key] out agg df) =
  map (fun v => [(key, v); (out, agg (partition_rows key v (rows df)))])
      (distinct value_eqb (map (get key) (rows df))).
Proof.
  unfold groupBy_agg. simpl.
  change (map (key_of [key]) (rows df))
    with (map (fun r => [get key r]) (rows df)).
  rewrite distinct_singleton_keys, map_map.
  apply map_ext. intros v. simpl. now rewrite group_rows_single.
Qed.

(** ** Q4 *)

Lemma positive_distance_iff (r : Row) :
  holds (positive_distance r) = true <->
  exists x, num_of (get "distance" r) = Some x /\ (0 < x)%R.
Proof.
  unfold positive_distance, sql_gt, sql_lt. simpl (num_of (VInt 0)).
  destruct (num_of (get "distance" r)) as [x|].
  - destruct (Rlt_dec 0 x) as [H|H]; simpl; split.
    + intros _. now exists x.
    + reflexivity.
    + discriminate.
    + intros [y [E Hy]]. injection E as <-. contradiction.
  - simpl. split; [discriminate|]. intros [y [E _]]. discriminate.
Qed.

Lemma numbers_distance (g : list Row) :
  (forall r, In r g -> holds (positive_distance r) = true) ->
  numbers (map (get "distance") g) = map distance_of g.
Proof.
  induction g as [|r g IH]; simpl; intros H; [reflexivity|].
  destruct (proj1 (positive_distance_iff r) (H r (or_introl eq_refl)))
    as [x [E _]].
  unfold distance_of at 1. rewrite E. f_equal. apply IH.
  intros r' Hr'. apply H. now right.
Qed.

Lemma Rsum_distances (g : list Row) :
  Rsum (map distance_of g) = total_distance g.
Proof.
  induction g as [|r g IH]; [reflexivity|].
  cbn [map total_distance]. rewrite <- IH. reflexivity.
Qed.

(** [AVG(distance)] over a non-empty group of rows of positive distance. *)
Lemma avg_col_positive (g : list Row) :
  g <> [] ->
  (forall r, In r g -> holds (positive_distance r) = true) ->
  avg_col "distance" g = VFloat (mean_distance g).
Proof.
  intros Hne H. unfold avg_col, mean_distance.
  rewrite (numbers_distance g H), <- Rsum_distances.
  destruct g as [|r g]; [contradiction|].
  cbn [map length]. now rewrite length_map.
Qed.

Lemma positive_rows_of_partition (k : value) (rs : list Row) :
  partition_rows "origin_airport_continent" k
    (filter (fun r => holds (positive_distance r)) rs) =
  positive_rows_of k rs.
Proof. unfold partition_rows, positive_rows_of. apply filter_filter. Qed.

Lemma positive_continents_In (k : value) (rs : list Row) :
  In k (positive_continents rs) <->
  exists r, In r rs /\ holds (positive_distance r) = true /\
            get "origin_airport_continent" r = k.
Proof.
  unfold positive_continents.
  rewrite (distinct_In value_eqb value_eqb_eq), in_map_iff.
  split.
  - intros [r [E Hr]]. apply filter_In in Hr. exists r. tauto.
  - intros [r [Hr [Hp E]]]. exists r. split; [exact E|].
    apply filter_In. now split.
Qed.

Lemma positive_rows_of_nonempty (k : value) (rs : list Row) :
  In k (positive_continents rs) -> positive_rows_of k rs <> [].
Proof.
  intros Hk. apply positive_continents_In in Hk.
  destruct Hk as [r [Hr [Hp E]]].
  assert (Hin : In r (positive_rows_of k rs)).
  { apply filter_In. split; [exact Hr|]. rewrite Hp. simpl.
    now apply value_eqb_eq. }
  intros Hnil. rewrite Hnil in Hin. contradiction.
Qed.

(** The SQL statement of Q4: one row per origin continent that has a row of
    positive distance, with the mean of those rows. *)
Lemma df_q4_sql_rows (df : DataFrame) :
  rows (df_q4_sql df) =
  map (fun k => [("origin_airport_continent", k);
                 ("distance_mean", VFloat (mean_distance (positive_rows_of k (rows df))))])
      (positive_continents (rows df)).
Proof.
  unfold df_q4_sql. rewrite groupBy_agg_single.
  change (rows (filter_df positive_distance df))
    with (filter (fun r => holds (positive_distance r)) (rows df)).
  fold (positive_continents (rows df)).
  apply map_ext_in. intros k Hk.
  rewrite positive_rows_of_partition.
  rewrite avg_col_positive; [reflexivity | now apply positive_rows_of_nonempty |].
  intros r Hr. apply filter_In in Hr. destruct Hr as [_ Hr].
  now apply andb_prop in Hr.
Qed.

Lemma df_q4_rows (df : DataFrame) :
  rows (df_q4 df) =
  map (fun k => [("distance_mean", VFloat (mean_distance (positive_rows_of k (rows df))));
                 ("continent_name", continent_name k)])
      (positive_continents (rows df)).
Proof.
  unfold df_q4, drop. cbn [rows].
  rewrite continent_join_rows, df_q4_sql_rows, !map_map.
  apply map_ext. intros k. cbn [get String.eqb Ascii.eqb Bool.eqb app].
  unfold continent_cells. destruct (continent_name k); reflexivity.
Qed.

Lemma df_q4_ignores (cols : list string) (l1 l2 : list Row) (r : Row) :
  holds (positive_distance r) = false ->
  df_q4 (mkDF cols (l1 ++ r :: l2)) = df_q4 (mkDF cols (l1 ++ l2)).
Proof.
  intros Hr. unfold df_q4, df_q4_sql.
  replace (filter_df positive_distance (mkDF cols (l1 ++ r :: l2)))
    with (filter_df positive_distance (mkDF cols (l1 ++ l2))); [reflexivity|].
  unfold filter_df. cbn [rows columns]. f_equal.
  rewrite !filter_app. simpl. now rewrite Hr.
Qed.

(** C5.  Q4 returns one row per origin continent that has a row of distance
    greater than 0; its mean is the sum of the distances of the rows of that
    continent whose distance is greater than 0, divided by their number, and
    it carries the display name of the continent.  Only rows of distance
    greater than 0 enter a mean: a row whose distance is NULL, -1, 0 or any
    other number not greater than 0 can be removed from the input without
    changing the result. *)
Theorem q4_mean_of_positive_distances :
  forall df : DataFrame,
    rows (df_q4 df) =
    map (fun k => [("distance_mean",
                    VFloat (mean_distance (positive_rows_of k (rows df))));
                   ("continent_name", continent_name k)])
        (positive_continents (rows df)) /\
    (forall k r,
       In r (positive_rows_of k (rows df)) <->
       In r (rows df) /\ get "origin_airport_continent" r = k /\
       exists x, num_of (get "distance" r) = Some x /\ (0 < x)%R) /\
    (forall l1 l2 r,
       rows df = l1 ++ r :: l2 ->
       ~ (exists x, num_of (get "distance" r) = Some x /\ (0 < x)%R) ->
       df_q4 df = df_q4 (mkDF (columns df) (l1 ++ l2))).
Proof.
  intros df. split; [apply df_q4_rows|]. split.
  - intros k r. unfold positive_rows_of.
    rewrite filter_In, andb_true_iff, positive_distance_iff, value_eqb_eq.
    tauto.
  - intros l1 l2 r E Hr. destruct df as [cols rs]. simpl in E. subst rs.
    apply df_q4_ignores.
    destruct (holds (positive_distance r)) eqn:Hp; [|reflexivity].
    exfalso. apply Hr. now apply positive_distance_iff.
Qed.

Lemma q4_mean_of_positive_distances_witness :
  (df_q4 q4_fixture =
     df_q4 (mkDF (columns q4_fixture)
                 ([q4_row (VFloat 1200)] ++ [q4_row (VFloat 0); q4_row VNull])) /\
   df_q4 q4_fixture =
     df_q4 (mkDF (columns q4_fixture)
                 ([q4_row (VFloat 1200); q4_row (VFloat (-1))] ++ [q4_row VNull])) /\
   df_q4 q4_fixture =
     df_q4 (mkDF (columns q4_fixture)
                 ([q4_row (VFloat 1200); q4_row (VFloat (-1)); q4_row (VFloat 0)]
                    ++ []))) /\
  rows (df_q4 q4_means_fixture)
  = [[("distance_mean", VFloat 1000); ("continent_name", VStr "Europe")];
     [("distance_mean", VFloat 500); ("continent_name", VStr "Asia")]].
Proof.
  split; [split; [|split]|].
  - apply (proj2 (proj2 (q4_mean_of_positive_distances q4_fixture))
             [q4_row (VFloat 1200)] [q4_row (VFloat 0); q4_row VNull]
             (q4_row (VFloat (-1)))); [reflexivity|].
    intros [x [E Hx]]. simpl in E. injection E as <-. lra.
  - apply (proj2 (proj2 (q4_mean_of_positive_distances q4_fixture))
             [q4_row (VFloat 1200); q4_row (VFloat (-1))] [q4_row VNull]
             (q4_row (VFloat 0))); [reflexivity|].
    intros [x [E Hx]]. simpl in E. injection E as <-. lra.
  - apply (proj2 (proj2 (q4_mean_of_positive_distances q4_fixture))
             [q4_row (VFloat 1200); q4_row (VFloat (-1)); q4_row (VFloat 0)] []
             (q4_row VNull)); [reflexivity|].
    intros [x [E Hx]]. simpl in E. discriminate.
  - rewrite (proj1 (q4_mean_of_positive_distances q4_means_fixture)).
    assert (Hfilter :
      filter (fun r => holds (positive_distance r)) (rows q4_means_fixture)
      = [q4_row (VFloat 1200); q4_row (VFloat 800);
         [("origin_airport_continent", VStr "AS"); ("distance", VFloat 500)]]).
    { unfold positive_distance, sql_gt, sql_lt.
      cbn [q4_means_fixture q4_row rows filter get num_of holds
           String.eqb Ascii.eqb Bool.eqb].
      repeat match goal with
             | |- context [Rlt_dec ?a ?b] =>
                 destruct (Rlt_dec a b); try lra; cbn [holds filter]
             end.
      reflexivity. }
    assert (Hk : positive_continents (rows q4_means_fixture)
                 = [VStr "EU"; VStr "AS"]).
    { unfold positive_continents. rewrite Hfilter. vm_compute. reflexivity. }
    assert (Heu : positive_rows_of (VStr "EU") (rows q4_means_fixture)
                  = [q4_row (VFloat 1200); q4_row (VFloat 800)]).
    { unfold positive_rows_of. rewrite <- filter_filter, Hfilter.
      vm_compute. reflexivity. }
    assert (Has : positive_rows_of (VStr "AS") (rows q4_means_fixture)
                  = [[("origin_airport_continent", VStr "AS");
                      ("distance", VFloat 500)]]).
    { unfold positive_rows_of. rewrite <- filter_filter, Hfilter.
      vm_compute. reflexivity. }
    rewrite Hk. cbn [map]. rewrite Heu, Has.
    unfold mean_distance. cbn [total_distance length distance_of q4_row get
                               num_of String.eqb Ascii.eqb Bool.eqb INR].
    change (continent_name (VStr "EU")) with (VStr "Europe").
    change (continent_name (VStr "AS")) with (VStr "Asia").
    repeat f_equal; field.
Defined.

(** ** Empty inputs *)

(** C8.  On a set without rows each of the seven queries returns a result
    without rows.  Q4 divides only by the size of a group that has a row of
    distance greater than 0: every row it returns carries a float mean, and
    a continent none of whose rows has a distance greater than 0 gets no row
    from the SQL statement of Q4. *)
Theorem queries_on_empty_sets :
  (forall cols : list string,
     rows (df_q1 (mkDF cols [])) = [] /\
     rows (df_q2 (mkDF cols [])) = [] /\
     rows (df_q3 (mkDF cols [])) = [] /\
     rows (df_q4 (mkDF cols [])) = [] /\
     rows (df_q5 (mkDF cols [])) = [] /\
     rows (df_q6 (mkDF cols [])) = [] /\
     rows (df_qb (mkDF cols [])) = []) /\
  (forall df : DataFrame,
     Forall (fun o => exists x, get "distance_mean" o = VFloat x)
            (rows (df_q4 df)) /\
     length (rows (df_q4 df)) = length (rows (df_q4_sql df))) /\
  (forall (df : DataFrame) (k : value),
     (forall r, In r (rows df) -> get "origin_airport_continent" r = k ->
                holds (positive_distance r) = false) ->
     ~ In k (map (get "origin_airport_continent") (rows (df_q4_sql df)))).
Proof.
  split; [|split].
  - intros cols. repeat (split; [reflexivity|]). reflexivity.
  - intros df. rewrite df_q4_rows, df_q4_sql_rows, !length_map. split; trivial.
    rewrite Forall_forall. intros o Ho. apply in_map_iff in Ho.
    destruct Ho as [k [<- _]]. eexists. reflexivity.
  - intros df k H Hin. rewrite df_q4_sql_rows, map_map in Hin.
    cbn [get String.eqb Ascii.eqb Bool.eqb] in Hin. rewrite map_id in Hin.
    apply positive_continents_In in Hin.
    destruct Hin as [r [Hr [Hp E]]]. rewrite (H r Hr E) in Hp. discriminate.
Qed.

Lemma queries_on_empty_sets_witness :
  ~ In (VStr "AF")
       (map (get "origin_airport_continent") (rows (df_q4_sql q4_fixture))) /\
  ~ In (VStr "EU")
       (map (get "origin_airport_continent")
            (rows (df_q4_sql (mkDF (columns q4_fixture)
                                   [q4_row (VFloat (-1)); q4_row (VFloat 0)])))).
Proof.
  split.
  - apply (proj2 (proj2 queries_on_empty_sets) q4_fixture (VStr "AF")).
    intros r Hr E. simpl in Hr.
    destruct Hr as [<-|[<-|[<-|[<-|[]]]]]; simpl in E; discriminate.
  - apply (proj2 (proj2 queries_on_empty_sets)
             (mkDF (columns q4_fixture) [q4_row (VFloat (-1)); q4_row (VFloat 0)])
             (VStr "EU")).
    intros r Hr _. simpl in Hr.
    destruct Hr as [<-|[<-|[]]];
      (destruct (holds (positive_distance _)) eqn:Hp; [|reflexivity]);
      apply positive_distance_iff in Hp; destruct Hp as [x [E Hx]];
      simpl in E; injection E as <-; lra.
Defined.

(** ** The distance column *)

Lemma distance_udf_null (a b c : value) :
  distance_udf VNull a b c = VNull /\
  distance_udf a VNull b c = VNull /\
  distance_udf a b VNull c = VNull /\
  distance_udf a b c VNull = VNull.
Proof.
  unfold distance_udf. cbn [to_python].
  destruct (to_python a), (to_python b), (to_python c); repeat split.
Qed.

(** C10.  The code attaches NULL, not -1, to a flight of unknown
    coordinates: [distance] returns the Python int -1 and the column is
    declared [FloatType()].  For the flight from Paris to New York, whose
    destination airport is missing from the catalog, the function returns the
    int -1 and the distance cell of the enriched row is NULL; the same holds
    whenever one of the four coordinate cells is NULL. *)
Theorem distance_cell_of_unmatched_flight :
  map (get "destination_latitude_deg")
      (rows (df_enriched one_flight paris_only planes_csv airlines_csv))
  = [VNull] /\
  (forall lat lon : R,
     distance (Some lat) (Some lon) None None = Some (PyInt (-1))) /\
  map (get "distance")
      (rows (df_enriched one_flight paris_only planes_csv airlines_csv))
  = [VNull] /\
  (forall a b c : value,
     distance_udf VNull a b c = VNull /\
     distance_udf a VNull b c = VNull /\
     distance_udf a b VNull c = VNull /\
     distance_udf a b c VNull = VNull).
Proof.
  split; [vm_compute; reflexivity|].
  split; [reflexivity|].
  split; [vm_compute; reflexivity|].
  apply distance_udf_null.
Qed.

(** ** [MAX] *)

Lemma holds_sql_eq (v w : value) :
  w <> VNull -> holds (sql_eq v w) = value_eqb v w.
Proof.
  intros Hw. destruct v, w; try reflexivity; try contradiction;
    unfold sql_eq; now destruct (value_eqb _ _).
Qed.

Lemma value_max_float (x y : R) :
  value_max (VFloat x) (VFloat y) = VFloat (Rmax y x).
Proof.
  unfold value_max, sql_lt, Rmax. simpl.
  destruct (Rlt_dec y x) as [H|H], (Rle_dec y x) as [H'|H']; simpl;
    try reflexivity; try lra.
  f_equal. lra.
Qed.

Lemma value_max_int (x y : Z) :
  value_max (VInt x) (VInt y) = VInt (Z.max y x).
Proof.
  unfold value_max, sql_lt. simpl.
  destruct (Rlt_dec (IZR y) (IZR x)) as [H|H]; simpl; f_equal.
  - apply lt_IZR in H. lia.
  - assert (x <= y)%Z by (apply le_IZR; lra). lia.
Qed.

(** [MAX] over a float column: NULL when every cell is NULL, otherwise the
    greatest float of the column. *)
Lemma max_col_float (c : string) (rs : list Row) :
  float_column c rs ->
  (max_col c rs = VNull /\ forall r, In r rs -> get c r = VNull) \/
  (exists m, max_col c rs = VFloat m /\
             (exists r, In r rs /\ get c r = VFloat m) /\
             forall r x, In r rs -> get c r = VFloat x -> (x <= m)%R).
Proof.
  unfold max_col. induction rs as [|r rs IH]; intros Hf.
  - left. split; [reflexivity|]. intros r [].
  - assert (Hf' : float_column c rs)
      by (intros r' Hr'; apply Hf; now right).
    specialize (IH Hf'). simpl.
    destruct (Hf r (or_introl eq_refl)) as [Hr|[x Hr]]; rewrite Hr.
    + destruct IH as [[Hm Hall]|[m [Hm [[r0 [Hr0 Hr0m]] Hub]]]].
      * left. split; [exact Hm|]. intros r' [<-|Hr']; auto.
      * right. exists m. split; [exact Hm|]. split.
        -- exists r0. split; [now right | exact Hr0m].
        -- intros r' y [<-|Hr'] E; [congruence | eauto].
    + right. destruct IH as [[Hm Hall]|[m [Hm [[r0 [Hr0 Hr0m]] Hub]]]].
      * rewrite Hm. exists x. split; [reflexivity|]. split.
        -- exists r. split; [now left | exact Hr].
        -- intros r' y [<-|Hr'] E.
           ++ rewrite Hr in E. injection E as <-. lra.
           ++ rewrite (Hall r' Hr') in E. discriminate.
      * rewrite Hm, value_max_float. exists (Rmax m x).
        split; [reflexivity|]. split.
        -- unfold Rmax. destruct (Rle_dec m x).
           ++ exists r. split; [now left | exact Hr].
           ++ exists r0. split; [now right | exact Hr0m].
        -- intros r' y [<-|Hr'] E.
           ++ rewrite Hr in E. injection E as <-. apply Rmax_r.
           ++ apply Rle_trans with m; [eauto | apply Rmax_l].
Qed.

(** [MAX] over a non-empty list of integer cells. *)
Lemma max_col_int (c : string) (f : Row -> Z) (rs : list Row) :
  (forall r, In r rs -> get c r = VInt (f r)) ->
  rs <> [] ->
  exists m, max_col c rs = VInt m /\
            (exists r, In r rs /\ f r = m) /\
            forall r, In r rs -> (f r <= m)%Z.
Proof.
  unfold max_col. induction rs as [|r rs IH]; intros Hf Hne; [contradiction|].
  simpl. rewrite (Hf r (or_introl eq_refl)).
  destruct rs as [|r1 rs].
  - simpl. exists (f r). split; [reflexivity|]. split.
    + exists r. split; [now left | reflexivity].
    + intros r' [<-|[]]. lia.
  - destruct IH as [m [Hm [[r0 [Hr0 Hr0m]] Hub]]].
    + intros r' Hr'. apply Hf. now right.
    + discriminate.
    + rewrite Hm, value_max_int. exists (Z.max m (f r)).
      split; [reflexivity|]. split.
      * destruct (Z.max_spec m (f r)) as [[_ E]|[_ E]]; rewrite E.
        -- exists r. split; [now left | reflexivity].
        -- exists r0. split; [now right | exact Hr0m].
      * intros r' [<-|Hr']; [lia|]. specialize (Hub r' Hr'). lia.
Qed.

(** ** Q3 and QB *)

Lemma holds_sql_eq_l (v w : value) :
  v <> VNull -> holds (sql_eq v w) = value_eqb w v.
Proof.
  intros Hv. destruct v; [contradiction| | |];
    destruct w; try reflexivity; unfold sql_eq, holds, value_eqb;
    repeat match goal with
           | |- context [value_eq_dec ?a ?b] => destruct (value_eq_dec a b)
           end; congruence.
Qed.

Lemma existsb_value_eqb (v : value) (l : list value) :
  existsb (value_eqb v) l = true <-> In v l.
Proof.
  rewrite existsb_exists. split.
  - intros [w [Hw E]]. apply value_eqb_eq in E. now subst.
  - intros H. exists v. split; [exact H | apply value_eqb_refl].
Qed.

Lemma q3_rows (df : DataFrame) (m : R) :
  max_col "distance" (rows df) = VFloat m ->
  rows (df_q3 df) =
  filter (fun r => value_eqb (get "distance" r) (VFloat m)) (rows df).
Proof.
  intros Hm. unfold df_q3, filter_df. cbn [rows]. rewrite Hm.
  apply filter_ext. intros r. now apply holds_sql_eq.
Qed.

Lemma count_col_partition (c k : string) (v : value) (rs : list Row) :
  count_col c (partition_rows k v rs) =
  VInt (Z.of_nat (length (filter (fun r => value_eqb (get k r) v
                                           && negb (is_null (get c r))) rs))).
Proof. unfold count_col, partition_rows. now rewrite filter_filter. Qed.

(** An inner join of two tables keyed by distinct values. *)
Lemma join_inner_keyed (cond : Row -> Row -> tribool) (F1 F2 : value -> Row)
  (L1 L2 : list value) (left right : DataFrame) :
  rows left = map F1 L1 ->
  rows right = map F2 L2 ->
  NoDup L2 ->
  (forall v w, In v L1 -> holds (cond (F1 v) (F2 w)) = value_eqb w v) ->
  rows (join_inner cond left right) =
  map (fun v => F1 v ++ F2 v) (filter (fun v => existsb (value_eqb v) L2) L1).
Proof.
  intros H1 H2 Hnd Hc. unfold join_inner, matches. cbn [rows].
  rewrite H1, H2. clear H1 H2.
  induction L1 as [|v L1 IH]; [reflexivity|]. simpl.
  rewrite IH by (intros v' w Hv'; apply Hc; now right).
  rewrite map_filter_comm.
  rewrite (filter_ext _ (fun w => value_eqb w v))
    by (intros w; apply Hc; now left).
  destruct (existsb (value_eqb v) L2) eqn:E.
  - apply existsb_value_eqb in E.
    now rewrite (filter_eq_NoDup value_eqb value_eqb_eq L2 v Hnd E).
  - rewrite (filter_eq_absent value_eqb value_eqb_eq L2 v); [reflexivity|].
    intros Hin. apply existsb_value_eqb in Hin. congruence.
Qed.

Lemma df_qb_1_rows (df : DataFrame) :
  rows (df_qb_1 df) =
  map (fun a => [("origin_airport_iata", a);
                 ("nb_departures", VInt (departures a (rows df)))])
      (filter (fun a => negb (is_null a))
              (distinct value_eqb (map (get "origin_airport_iata") (rows df)))).
Proof.
  unfold df_qb_1, filter_df. cbn [rows].
  rewrite groupBy_agg_single, map_filter_comm.
  rewrite (filter_ext _ (fun a => negb (is_null a)))
    by (intros a; cbn [get String.eqb Ascii.eqb Bool.eqb];
        unfold isNotNull, holds; now destruct (is_null a)).
  apply map_ext. intros a. now rewrite count_col_partition.
Qed.

Lemma df_qb_2_rows (df : DataFrame) :
  rows (df_qb_2 df) =
  map (fun a => [("destination_airport_iata", a);
                 ("nb_arrivals", VInt (arrivals a (rows df)))])
      (filter (fun a => negb (is_null a))
              (distinct value_eqb
                 (map (get "destination_airport_iata") (rows df)))).
Proof.
  unfold df_qb_2, filter_df. cbn [rows].
  rewrite groupBy_agg_single, map_filter_comm.
  rewrite (filter_ext _ (fun a => negb (is_null a)))
    by (intros a; cbn [get String.eqb Ascii.eqb Bool.eqb];
        unfold isNotNull, holds; now destruct (is_null a)).
  apply map_ext. intros a. now rewrite count_col_partition.
Qed.

(** The view of QB holds one row per airport that is both an origin and a
    destination. *)
Lemma df_qb_view_rows (df : DataFrame) :
  rows (df_qb_view df) = map (qb_row (rows df)) (two_way_airports (rows df)).
Proof.
  unfold df_qb_view.
  change (rows (withColumnRenamed ?o ?n ?d))
    with (map (map (fun p => (rename o n (fst p), snd p))) (rows d)).
  change (rows (drop ?ns ?d)) with (map (drop_row ns) (rows d)).
  change (rows (withColumn "difference" ?e (join_inner ?c ?l ?r)))
    with (map (fun x => x ++ [("difference", e x)]) (rows (join_inner c l r))).
  rewrite (join_inner_keyed qb_cond _ _ _ _ _ _
             (df_qb_1_rows df) (df_qb_2_rows df)).
  - rewrite filter_filter, !map_map. unfold two_way_airports.
    rewrite (filter_ext_in
               (fun a => negb (is_null a)
                         && existsb (value_eqb a)
                              (filter (fun a0 => negb (is_null a0))
                                 (distinct value_eqb
                                    (map (get "destination_airport_iata") (rows df)))))
               (fun a => negb (is_null a)
                         && existsb (value_eqb a)
                              (map (get "destination_airport_iata") (rows df)))).
    + apply map_ext. intros a. reflexivity.
    + intros a _. destruct a; try reflexivity; cbn [is_null negb andb];
        apply eq_true_iff_eq;
        rewrite !existsb_value_eqb, filter_In,
          (distinct_In value_eqb value_eqb_eq);
        cbn [is_null negb]; intuition.
  - apply NoDup_filter, (distinct_NoDup value_eqb value_eqb_eq).
  - intros v w Hv. apply filter_In in Hv. destruct Hv as [_ Hv].
    unfold qb_cond. cbn [get String.eqb Ascii.eqb Bool.eqb].
    apply holds_sql_eq_l. intros ->. discriminate.
Qed.

(** QB returns the rows of its view whose difference is the greatest. *)
Lemma df_qb_rows (df : DataFrame) :
  (two_way_airports (rows df) = [] -> rows (df_qb df) = []) /\
  (two_way_airports (rows df) <> [] ->
   exists m,
     (forall a, In a (two_way_airports (rows df)) ->
                (imbalance a (rows df) <= m)%Z) /\
     rows (df_qb df) =
       map (qb_row (rows df))
           (filter (fun a => (imbalance a (rows df) =? m)%Z)
                   (two_way_airports (rows df))) /\
     rows (df_qb df) <> []).
Proof.
  unfold df_qb. cbv zeta. unfold filter_df. cbn [rows].
  rewrite df_qb_view_rows. set (T := two_way_airports (rows df)).
  split; [intros ->; reflexivity|]. intros Hne.
  destruct (max_col_int "difference"
              (fun r => count_of (get "difference" r))
              (map (qb_row (rows df)) T)) as [m [Hm [[r0 [Hr0 Hr0m]] Hub]]].
  - intros r Hr. apply in_map_iff in Hr. destruct Hr as [a [<- _]]. reflexivity.
  - destruct T; [contradiction | discriminate].
  - rewrite Hm. exists m.
    assert (E : filter (fun r => holds (sql_eq (get "difference" r) (VInt m)))
                  (map (qb_row (rows df)) T) =
                map (qb_row (rows df))
                  (filter (fun a => (imbalance a (rows df) =? m)%Z) T)).
    { rewrite map_filter_comm. f_equal. apply filter_ext. intros a.
      rewrite holds_sql_eq by discriminate.
      cbn [qb_row get String.eqb Ascii.eqb Bool.eqb].
      unfold value_eqb.
      destruct (value_eq_dec (VInt (imbalance a (rows df))) (VInt m)) as [H|H];
        symmetry.
      - apply Z.eqb_eq. congruence.
      - apply Z.eqb_neq. congruence. }
    rewrite E. split; [|split; [reflexivity|]].
    + intros a Ha. apply (Hub (qb_row (rows df) a)). now apply in_map.
    + apply in_map_iff in Hr0. destruct Hr0 as [a [<- Ha]].
      cbn [qb_row get String.eqb Ascii.eqb Bool.eqb count_of] in Hr0m.
      assert (Hin : In a (filter (fun a => (imbalance a (rows df) =? m)%Z) T)).
      { apply filter_In. split; [exact Ha | now apply Z.eqb_eq]. }
      intros Hnil. apply map_eq_nil in Hnil. rewrite Hnil in Hin. contradiction.
Qed.

(** C1, as the claim states it, fails on the flight from Paris to New York:
    the active set and the enriched set hold one row, the distance of the
    row is NULL, so that Q3 returns nothing, and no airport is both an origin
    and a destination, so that the inner join of QB returns nothing. *)
Lemma q3_qb_empty_on_one_flight :
  rows (df_active_of one_flight paris_only planes_csv airlines_csv) <> [] /\
  rows (df_q3 (df_active_of one_flight paris_only planes_csv airlines_csv)) = [] /\
  rows (df_enriched one_flight paris_only planes_csv airlines_csv) <> [] /\
  rows (df_qb (df_enriched one_flight paris_only planes_csv airlines_csv)) = [].
Proof.
  split; [vm_compute; discriminate|].
  split; [vm_compute; reflexivity|].
  split; [vm_compute; discriminate|].
  vm_compute; reflexivity.
Qed.

(** C1, amended.  On a set whose distance column holds floats and NULLs and
    has a float, Q3 returns a non-empty result: exactly the rows whose
    distance is the greatest float of the column.  On every set, QB ranks the
    airports that are both the origin of a row and the destination of a row:
    it returns nothing when there is none, and otherwise a non-empty result,
    exactly the rows of such airports whose absolute difference between the
    departures and the arrivals (counted over the rows with an identifier) is
    the greatest. *)
Theorem q3_and_qb_return_the_maxima :
  (forall df : DataFrame,
     float_column "distance" (rows df) ->
     (exists r, In r (rows df) /\ get "distance" r <> VNull) ->
     exists m,
       (forall r x, In r (rows df) -> get "distance" r = VFloat x -> (x <= m)%R) /\
       rows (df_q3 df) =
         filter (fun r => value_eqb (get "distance" r) (VFloat m)) (rows df) /\
       rows (df_q3 df) <> []) /\
  (forall df : DataFrame,
     (two_way_airports (rows df) = [] -> rows (df_qb df) = []) /\
     (two_way_airports (rows df) <> [] ->
      exists m,
        (forall a, In a (two_way_airports (rows df)) ->
                   (imbalance a (rows df) <= m)%Z) /\
        rows (df_qb df) =
          map (qb_row (rows df))
              (filter (fun a => (imbalance a (rows df) =? m)%Z)
                      (two_way_airports (rows df))) /\
        rows (df_qb df) <> [])).
Proof.
  split; [|apply df_qb_rows].
  intros df Hf [r [Hr Hnn]].
  destruct (max_col_float "distance" (rows df) Hf)
    as [[_ Hall]|[m [Hm [[r0 [Hr0 Hr0m]] Hub]]]].
  - elim Hnn. now apply Hall.
  - exists m. split; [exact Hub|]. rewrite (q3_rows df m Hm).
    split; [reflexivity|].
    assert (Hin : In r0 (filter (fun r => value_eqb (get "distance" r) (VFloat m))
                           (rows df))).
    { apply filter_In. split; [exact Hr0|]. rewrite Hr0m. apply value_eqb_refl. }
    intros Hnil. rewrite Hnil in Hin. contradiction.
Qed.

Lemma q3_and_qb_return_the_maxima_witness :
  (exists m,
     (forall r x, In r (rows q3_fixture) -> get "distance" r = VFloat x ->
                  (x <= m)%R) /\
     rows (df_q3 q3_fixture) =
       filter (fun r => value_eqb (get "distance" r) (VFloat m))
              (rows q3_fixture) /\
     rows (df_q3 q3_fixture) <> []) /\
  (exists m,
     (forall a, In a (two_way_airports (rows qb_fixture)) ->
                (imbalance a (rows qb_fixture) <= m)%Z) /\
     rows (df_qb qb_fixture) =
       map (qb_row (rows qb_fixture))
           (filter (fun a => (imbalance a (rows qb_fixture) =? m)%Z)
                   (two_way_airports (rows qb_fixture))) /\
     rows (df_qb qb_fixture) <> []).
Proof.
  split.
  - apply (proj1 q3_and_qb_return_the_maxima q3_fixture).
    + intros r Hr. simpl in Hr.
      destruct Hr as [<-|[<-|[<-|[]]]];
        [right; eexists; reflexivity | left; reflexivity
         | right; eexists; reflexivity].
    + eexists. split; [left; reflexivity|]. simpl. discriminate.
  - apply (proj2 (proj2 q3_and_qb_return_the_maxima qb_fixture)).
    vm_compute. discriminate.
Defined.

(** ** Window ranking *)

Lemma flat_map_absent {A B : Type} (g : A -> list B) (D : list A) (x : A) :
  ~ In x D ->
  (forall y, In y D -> y <> x -> g y = []) ->
  flat_map g D = [].
Proof.
  induction D as [|y D IH]; intros Hx Hg; [reflexivity|]. simpl.
  rewrite (Hg y); [|now left|intros ->; apply Hx; now left].
  apply IH.
  - intros H. apply Hx. now right.
  - intros z Hz. apply Hg. now right.
Qed.

Lemma flat_map_only {A B : Type} (g : A -> list B) (D : list A) (x : A) :
  NoDup D -> In x D ->
  (forall y, In y D -> y <> x -> g y = []) ->
  flat_map g D = g x.
Proof.
  induction D as [|y D IH]; intros Hnd Hx Hg; [contradiction|].
  inversion_clear Hnd as [|? ? Hy HD]. simpl.
  assert (Hg' : forall z, In z D -> z <> x -> g z = [])
    by (intros z Hz; apply Hg; now right).
  destruct Hx as [->|Hx].
  - rewrite (flat_map_absent g D x Hy Hg'). apply app_nil_r.
  - rewrite (Hg y); [|now left|intros ->; contradiction].
    now apply IH.
Qed.

Lemma In_firstn {A : Type} (n : nat) (l : list A) (x : A) :
  In x (firstn n l) -> In x l.
Proof.
  intros H. rewrite <- (firstn_skipn n l). apply in_or_app. now left.
Qed.

Lemma top_rows_In (n : nat) (part c : string) (rs : list Row) (r : Row) :
  In r (top_rows n part c rs) -> In r rs.
Proof.
  unfold top_rows. rewrite in_flat_map. intros [p [_ Hr]].
  apply In_firstn, sort_desc_In in Hr.
  now apply filter_In in Hr.
Qed.

(** The rows of a partition that the ranking keeps are the first rows of
    the partition in descending order. *)
Lemma top_rows_partition (n : nat) (part c : string) (rs : list Row)
  (p : value) :
  partition_rows part p (top_rows n part c rs) =
  firstn n (sort_desc c (partition_rows part p rs)).
Proof.
  unfold partition_rows at 1. unfold top_rows. rewrite filter_flat_map.
  set (g := fun q => filter (fun r => value_eqb (get part r) p)
                       (firstn n (sort_desc c (partition_rows part q rs)))).
  assert (Hother : forall q, q <> p -> g q = []).
  { intros q Hq. apply filter_none. intros r Hr.
    apply In_firstn, sort_desc_In, filter_In in Hr.
    destruct Hr as [_ Hr]. apply value_eqb_eq in Hr.
    apply value_eqb_neq. congruence. }
  assert (Hp : g p = firstn n (sort_desc c (partition_rows part p rs))).
  { apply filter_all. intros r Hr.
    apply In_firstn, sort_desc_In, filter_In in Hr. tauto. }
  destruct (in_dec value_eq_dec p (distinct value_eqb (map (get part) rs)))
    as [Hin|Hin].
  - rewrite (flat_map_only g _ p); auto.
    apply (distinct_NoDup value_eqb value_eqb_eq).
  - rewrite (flat_map_absent g _ p); auto.
    assert (E : partition_rows part p rs = []).
    { apply filter_none. intros r Hr.
      apply value_eqb_neq. intros E. apply Hin.
      apply (distinct_In value_eqb value_eqb_eq). rewrite <- E.
      now apply in_map. }
    rewrite E. simpl. now rewrite firstn_nil.
Qed.

(** What the ranking keeps of a partition: its [n] greatest counts. *)
Lemma top_rows_greatest (n : nat) (part c : string) (rs : list Row)
  (p : value) :
  exists rest,
    Permutation (partition_rows part p (top_rows n part c rs) ++ rest)
                (partition_rows part p rs) /\
    length (partition_rows part p (top_rows n part c rs)) =
      Nat.min n (length (partition_rows part p rs)) /\
    forall t r, In t (partition_rows part p (top_rows n part c rs)) ->
                In r rest -> (cnt c r <= cnt c t)%Z.
Proof.
  rewrite top_rows_partition.
  set (l := sort_desc c (partition_rows part p rs)).
  exists (skipn n l). split; [|split].
  - rewrite firstn_skipn. apply sort_desc_perm.
  - rewrite length_firstn. unfold l. now rewrite sort_desc_length.
  - intros t r Ht Hr.
    apply (descending_firstn c n l); [apply sort_desc_descending | exact Ht | exact Hr].
Qed.

(** ** Q6 *)

Lemma key_eqb_cons (x y : value) (k l : list value) :
  key_eqb (x :: k) (y :: l) = value_eqb x y && key_eqb k l.
Proof.
  unfold key_eqb, value_eqb.
  destruct (list_eq_dec value_eq_dec (x :: k) (y :: l)) as [E|E],
           (value_eq_dec x y) as [E1|E1],
           (list_eq_dec value_eq_dec k l) as [E2|E2];
    simpl; congruence.
Qed.

Lemma key_eqb_nil : key_eqb [] [] = true.
Proof. now apply key_eqb_eq. Qed.

(** [COUNT(c)] over rows that all hold the same cell [a] in column [c]. *)
Lemma count_col_same (c : string) (a : value) (g : list Row) :
  (forall r, In r g -> get c r = a) ->
  count_col c g = VInt (if is_null a then 0 else Z.of_nat (length g)).
Proof.
  intros H. unfold count_col. destruct (is_null a) eqn:Ha.
  - rewrite filter_none; [reflexivity|].
    intros r Hr. rewrite (H r Hr), Ha. reflexivity.
  - rewrite filter_all; [reflexivity|].
    intros r Hr. rewrite (H r Hr), Ha. reflexivity.
Qed.

Lemma NoDup_map_filter (keep : Row -> bool) (key : Row -> list value)
  (l : list Row) :
  NoDup (map key l) -> NoDup (map key (filter keep l)).
Proof.
  revert keep key.
  intros p f. induction l as [|x l IH]; simpl; intros H; [constructor|].
  inversion_clear H as [|? ? Hx Hl].
  destruct (p x); simpl; [|now apply IH].
  constructor; [|now apply IH].
  intros Hin. apply Hx. apply in_map_iff in Hin.
  destruct Hin as [y [E Hy]]. apply filter_In in Hy.
  apply in_map_iff. exists y. tauto.
Qed.

Lemma q6_group_rows (a b : value) (rs : list Row) :
  group_rows q6_keys [a; b] rs =
  filter (fun r => value_eqb (get "airline_name" r) a
                   && value_eqb (get "aircraft_name" r) b) rs.
Proof.
  unfold group_rows. apply filter_ext. intros r.
  cbn [q6_keys key_of map].
  now rewrite !key_eqb_cons, key_eqb_nil, andb_true_r.
Qed.

Lemma q6_count (a b : value) (rs : list Row) :
  a <> VNull ->
  count_col "airline_name" (group_rows q6_keys [a; b] rs) =
  VInt (flights_of a b rs).
Proof.
  intros Ha. rewrite q6_group_rows.
  rewrite (count_col_same "airline_name" a).
  - destruct a; [contradiction| | |]; reflexivity.
  - intros r Hr. apply filter_In in Hr. destruct Hr as [_ Hr].
    apply andb_prop in Hr. now apply value_eqb_eq.
Qed.

Lemma is_null_false (v : value) : negb (is_null v) = true <-> v <> VNull.
Proof. destruct v; simpl; split; congruence. Qed.

(** The view of Q6: one row for every airline and aircraft, both known,
    that some row of the set has, with the number of these rows. *)
Lemma df_q6_view_In (df : DataFrame) (v : Row) :
  In v (rows (df_q6_view df)) <->
  exists r, In r (rows df) /\
            get "airline_name" r <> VNull /\
            get "aircraft_name" r <> VNull /\
            v = q6_row (rows df) (get "airline_name" r) (get "aircraft_name" r).
Proof.
  unfold df_q6_view, withColumnRenamed, filter_df, orderBy_desc, groupBy_agg.
  cbn [rows]. rewrite in_map_iff. split.
  - intros [g [Ev Hg]].
    apply filter_In in Hg. destruct Hg as [Hg Hb].
    apply filter_In in Hg. destruct Hg as [Hg Ha].
    apply sort_desc_In, in_map_iff in Hg. destruct Hg as [k [Eg Hk]].
    apply (distinct_In key_eqb key_eqb_eq), in_map_iff in Hk.
    destruct Hk as [r [Ek Hr]]. exists r. split; [exact Hr|].
    subst k g. cbn [q6_keys key_of map combine app] in *.
    cbn [get String.eqb Ascii.eqb Bool.eqb isNotNull holds] in Ha, Hb.
    assert (Ha' : get "airline_name" r <> VNull)
      by (apply is_null_false; now destruct (is_null (get "airline_name" r))).
    assert (Hb' : get "aircraft_name" r <> VNull)
      by (apply is_null_false; now destruct (is_null (get "aircraft_name" r))).
    repeat split; trivial.
    subst v. cbn [map fst snd rename String.eqb Ascii.eqb Bool.eqb].
    fold q6_keys. now rewrite q6_count.
  - intros [r [Hr [Ha [Hb Ev]]]].
    exists (combine q6_keys (key_of q6_keys r)
              ++ [("count(airline_name)",
                   count_col "airline_name"
                     (group_rows q6_keys (key_of q6_keys r) (rows df)))]).
    split.
    + subst v. cbn [q6_keys key_of map combine app fst snd rename
                    String.eqb Ascii.eqb Bool.eqb].
      fold q6_keys. now rewrite q6_count.
    + apply filter_In. split; [apply filter_In; split|].
      * apply sort_desc_In, in_map_iff. exists (key_of q6_keys r).
        split; [reflexivity|].
        apply (distinct_In key_eqb key_eqb_eq). now apply in_map.
      * cbn [q6_keys key_of map combine app get String.eqb Ascii.eqb Bool.eqb
             isNotNull holds].
        apply is_null_false in Ha. now rewrite Ha.
      * cbn [q6_keys key_of map combine app get String.eqb Ascii.eqb Bool.eqb
             isNotNull holds].
        apply is_null_false in Hb. now rewrite Hb.
Qed.

(** No airline and aircraft has two rows in the view. *)
Lemma df_q6_view_NoDup (df : DataFrame) :
  NoDup (map (key_of q6_keys) (rows (df_q6_view df))).
Proof.
  unfold df_q6_view, withColumnRenamed, filter_df, orderBy_desc, groupBy_agg.
  cbn [rows]. rewrite map_map.
  rewrite (map_ext _ (key_of q6_keys)).
  - do 2 apply NoDup_map_filter.
    apply (Permutation_NoDup
             (Permutation_map _ (Permutation_sym (sort_desc_perm _ _)))).
    rewrite map_map.
    rewrite (map_ext_in _ (fun k => k)); [rewrite map_id|].
    + apply (distinct_NoDup key_eqb key_eqb_eq).
    + intros k Hk. apply (distinct_In key_eqb key_eqb_eq), in_map_iff in Hk.
      destruct Hk as [r [<- _]]. reflexivity.
  - intros g. unfold key_of, q6_keys. cbn [map]. f_equal; [|f_equal].
    + induction g as [|[c x] g IH]; [reflexivity|].
      cbn [map get fst snd]. unfold rename at 1.
      destruct (String.eqb c "count(airline_name)") eqn:E.
      * apply String.eqb_eq in E. subst c. cbn. exact IH.
      * destruct (String.eqb "airline_name" c); [reflexivity | exact IH].
    + induction g as [|[c x] g IH]; [reflexivity|].
      cbn [map get fst snd]. unfold rename at 1.
      destruct (String.eqb c "count(airline_name)") eqn:E.
      * apply String.eqb_eq in E. subst c. cbn. exact IH.
      * destruct (String.eqb "aircraft_name" c); [reflexivity | exact IH].
Qed.

Lemma df_q6_rows (df : DataFrame) :
  rows (df_q6 df) =
  top_rows 3 "airline_name" "number_of_flights" (rows (df_q6_view df)).
Proof.
  unfold df_q6, row_number_le, select. cbn [rows].
  rewrite <- (map_id (top_rows _ _ _ _)) at 2.
  apply map_ext_in. intros v Hv.
  apply top_rows_In, df_q6_view_In in Hv.
  destruct Hv as [r [_ [_ [_ ->]]]]. reflexivity.
Qed.


(** ** Q2 *)

Lemma q2_group_rows (o d a : value) (rs : list Row) :
  group_rows q2_keys [o; d; a] rs =
  filter (fun r => value_eqb (get "origin_airport_continent" r) o
                   && (value_eqb (get "destination_airport_continent" r) d
                       && value_eqb (get "airline_name" r) a)) rs.
Proof.
  unfold group_rows. apply filter_ext. intros r.
  cbn [q2_keys key_of map].
  now rewrite !key_eqb_cons, key_eqb_nil, andb_true_r.
Qed.

Lemma q2_count (c a : value) (rs : list Row) :
  count_col "airline_name" (group_rows q2_keys [c; c; a] rs) =
  VInt (named_count c a rs).
Proof.
  rewrite q2_group_rows. apply count_col_same.
  intros r Hr. apply filter_In in Hr. destruct Hr as [_ Hr].
  apply andb_prop in Hr. destruct Hr as [_ Hr].
  apply andb_prop in Hr. now apply value_eqb_eq.
Qed.

Lemma holds_sql_eq_iff (v w : value) :
  holds (sql_eq v w) = true <-> v = w /\ w <> VNull.
Proof.
  destruct w.
  - destruct v; simpl; split; try discriminate; intros [_ H]; congruence.
  - rewrite holds_sql_eq by discriminate. rewrite value_eqb_eq.
    split; [intros ->; split; [reflexivity|discriminate] | tauto].
  - rewrite holds_sql_eq by discriminate. rewrite value_eqb_eq.
    split; [intros ->; split; [reflexivity|discriminate] | tauto].
  - rewrite holds_sql_eq by discriminate. rewrite value_eqb_eq.
    split; [intros ->; split; [reflexivity|discriminate] | tauto].
Qed.

(** The view of Q2: one row for every continent and airline that some row
    of that continent at both ends has. *)
Lemma df_q2_view_In (df : DataFrame) (v : Row) :
  In v (rows (df_q2_view df)) <->
  exists r, In r (rows df) /\
            regional_in (get "destination_airport_continent" r) r /\
            v = q2_row (rows df) (get "destination_airport_continent" r)
                       (get "airline_name" r).
Proof.
  unfold df_q2_view, df_q2_grouped, withColumnRenamed, drop, filter_df,
    orderBy_desc, groupBy_agg.
  cbn [rows]. rewrite !map_map, in_map_iff. split.
  - intros [g [Ev Hg]].
    apply filter_In in Hg. destruct Hg as [Hg Hreg].
    apply sort_desc_In, in_map_iff in Hg. destruct Hg as [k [Eg Hk]].
    apply (distinct_In key_eqb key_eqb_eq), in_map_iff in Hk.
    destruct Hk as [r [Ek Hr]]. exists r. split; [exact Hr|].
    subst k g. cbn [q2_keys key_of map combine app] in *.
    unfold regional in Hreg.
    cbn [get String.eqb Ascii.eqb Bool.eqb] in Hreg.
    apply holds_sql_eq_iff in Hreg. destruct Hreg as [Eo Hd].
    split; [now repeat split|].
    subst v. rewrite Eo.
    cbn [map fst snd rename drop_row filter mem existsb negb orb
         String.eqb Ascii.eqb Bool.eqb].
    fold q2_keys. now rewrite q2_count.
  - intros [r [Hr [[Eo [_ Hd]] Ev]]].
    exists (combine q2_keys (key_of q2_keys r)
              ++ [("count(airline_name)",
                   count_col "airline_name"
                     (group_rows q2_keys (key_of q2_keys r) (rows df)))]).
    split.
    + subst v. cbn [q2_keys key_of map combine app]. rewrite Eo.
      cbn [map fst snd rename drop_row filter mem existsb negb orb
           String.eqb Ascii.eqb Bool.eqb].
      fold q2_keys. now rewrite q2_count.
    + apply filter_In. split.
      * apply sort_desc_In, in_map_iff. exists (key_of q2_keys r).
        split; [reflexivity|].
        apply (distinct_In key_eqb key_eqb_eq). now apply in_map.
      * unfold regional.
        cbn [q2_keys key_of map combine app get String.eqb Ascii.eqb Bool.eqb].
        apply holds_sql_eq_iff. now split.
Qed.

Lemma df_q2_ranked_rows (df : DataFrame) :
  rows (df_q2_ranked df) =
  top_rows 1 "continent" "number_of_flights" (rows (df_q2_view df)).
Proof.
  unfold df_q2_ranked, row_number_le, select. cbn [rows].
  rewrite <- (map_id (top_rows _ _ _ _)) at 2.
  apply map_ext_in. intros v Hv.
  apply top_rows_In, df_q2_view_In in Hv.
  destruct Hv as [r [_ [_ ->]]]. reflexivity.
Qed.

Lemma df_q2_rows (df : DataFrame) :
  rows (df_q2 df) = map q2_result (rows (df_q2_ranked df)).
Proof.
  unfold df_q2, drop. cbn [rows]. rewrite continent_join_rows, map_map.
  apply map_ext_in. intros v Hv.
  rewrite df_q2_ranked_rows in Hv.
  apply top_rows_In, df_q2_view_In in Hv.
  destruct Hv as [r [_ [_ ->]]].
  unfold q2_result, q2_row. cbn [get String.eqb Ascii.eqb Bool.eqb app].
  unfold continent_cells.
  destruct (continent_name (get "destination_airport_continent" r));
    reflexivity.
Qed.

Lemma singleton_of_length {A : Type} (l : list A) :
  length l = 1%nat -> exists x, l = [x].
Proof.
  destruct l as [|x [|y l]]; simpl; try discriminate.
  intros _. now exists x.
Qed.

(** The ranking of Q2 keeps, for a continent that has a regional row, one
    row of the view, of greatest count. *)
Lemma df_q2_ranked_partition (df : DataFrame) (c : value) :
  (forall r, In r (rows df) -> ~ regional_in c r) ->
  partition_rows "continent" c (rows (df_q2_ranked df)) = [].
Proof.
  intros Hnone. rewrite df_q2_ranked_rows, top_rows_partition.
  assert (E : partition_rows "continent" c (rows (df_q2_view df)) = []).
  { apply filter_none. intros v Hv.
    apply df_q2_view_In in Hv. destruct Hv as [r [Hr [Hreg ->]]].
    cbn [q2_row get String.eqb Ascii.eqb Bool.eqb].
    apply value_eqb_neq. intros E. apply (Hnone r Hr). now rewrite <- E. }
  rewrite E. reflexivity.
Qed.

Lemma df_q2_ranked_top (df : DataFrame) (c : value) (r0 : Row) :
  In r0 (rows df) -> regional_in c r0 ->
  exists a,
    partition_rows "continent" c (rows (df_q2_ranked df)) =
      [q2_row (rows df) c a] /\
    (exists r, In r (rows df) /\ regional_in c r /\ get "airline_name" r = a) /\
    forall r, In r (rows df) -> regional_in c r ->
              (named_count c (get "airline_name" r) (rows df)
               <= named_count c a (rows df))%Z.
Proof.
  intros Hr0 Hreg0.
  assert (Hview : forall r, In r (rows df) -> regional_in c r ->
            In (q2_row (rows df) c (get "airline_name" r))
               (partition_rows "continent" c (rows (df_q2_view df)))).
  { intros r Hr Hreg. apply filter_In. split.
    - apply df_q2_view_In. exists r. destruct Hreg as [Eo [Ed Hc]].
      rewrite Ed. repeat split; trivial.
    - cbn [q2_row get String.eqb Ascii.eqb Bool.eqb]. apply value_eqb_refl. }
  rewrite df_q2_ranked_rows.
  destruct (top_rows_greatest 1 "continent" "number_of_flights"
              (rows (df_q2_view df)) c) as [rest [Hperm [Hlen Hub]]].
  set (top := partition_rows "continent" c
                (top_rows 1 "continent" "number_of_flights"
                   (rows (df_q2_view df)))) in *.
  set (part := partition_rows "continent" c (rows (df_q2_view df))) in *.
  assert (Hpos : length part <> 0%nat).
  { specialize (Hview r0 Hr0 Hreg0). destruct part; [contradiction|discriminate]. }
  destruct (singleton_of_length top) as [t Et]; [lia|].
  rewrite Et in *.
  assert (Ht : In t part).
  { apply (Permutation_in _ Hperm). now left. }
  apply filter_In in Ht. destruct Ht as [Ht Hc].
  apply df_q2_view_In in Ht. destruct Ht as [r [Hr [Hreg Ev]]].
  subst t. cbn [q2_row get String.eqb Ascii.eqb Bool.eqb] in Hc.
  apply value_eqb_eq in Hc. rewrite Hc in Hreg |- *.
  exists (get "airline_name" r). split; [reflexivity|]. split.
  - exists r. split; [exact Hr|]. split; [exact Hreg|reflexivity].
  - intros r' Hr' Hreg'.
    specialize (Hview r' Hr' Hreg').
    apply (Permutation_in _ (Permutation_sym Hperm)) in Hview.
    destruct Hview as [E|Hin].
    + unfold q2_row in E. injection E as _ E. rewrite E. lia.
    + specialize (Hub _ _ (or_introl eq_refl) Hin).
      rewrite Hc in Hub. exact Hub.
Qed.

(** C6, as stated, fails on an active set whose only regional flight is of
    an airline that the airline catalog does not list: the flight leaves and
    reaches Europe and has no airline name, its group holds one flight, and
    Q2 returns for Europe a row without airline whose count is 0.  With two
    such flights and one flight of Air France, the group without airline
    name holds two flights and Q2 returns Air France with one. *)
Lemma q2_row_without_airline :
  (map (fun r => (get "origin_airport_continent" r,
                  get "destination_airport_continent" r,
                  get "airline_name" r))
       (rows q2_fixture) = [(VStr "EU", VStr "EU", VNull)] /\
   length (regional_flights (VStr "EU") VNull (rows q2_fixture)) = 1%nat /\
   rows (df_q2 q2_fixture) =
     [[("airline_name", VNull); ("number_of_flights", VInt 0);
       ("continent_name", VStr "Europe")]]) /\
  (map (fun r => (get "origin_airport_continent" r,
                  get "destination_airport_continent" r,
                  get "airline_name" r))
       (rows q2_fixture_mixed) =
     [(VStr "EU", VStr "EU", VNull); (VStr "EU", VStr "EU", VNull);
      (VStr "EU", VStr "EU", VStr "Air France")] /\
   length (regional_flights (VStr "EU") VNull (rows q2_fixture_mixed)) = 2%nat /\
   rows (df_q2 q2_fixture_mixed) =
     [[("airline_name", VStr "Air France"); ("number_of_flights", VInt 1);
       ("continent_name", VStr "Europe")]]).
Proof. repeat split; lazy; reflexivity. Qed.

(** C6, amended.  Q2, over the active set, groups the rows by (origin
    continent, destination continent, airline name) and gives every group
    the number of its rows that have an airline name: the size of the group,
    and 0 for the group of the rows without airline name.  It keeps the
    groups whose origin continent equals the destination continent, a
    continent that is not NULL.  For every continent that has such a row the
    ranking holds exactly one row, of a group of that continent whose count
    is the greatest of the continent; for every other continent it holds
    none.  The result gives every row of the ranking its airline name, its
    count and the display name of its continent, NULL when the code is not
    one of the six. *)
Theorem q2_top_regional_airline :
  forall df_active : DataFrame,
    (forall v, In v (rows (df_q2_view df_active)) <->
       exists r, In r (rows df_active) /\
                 regional_in (get "destination_airport_continent" r) r /\
                 v = q2_row (rows df_active)
                       (get "destination_airport_continent" r)
                       (get "airline_name" r)) /\
    (forall c r0, In r0 (rows df_active) -> regional_in c r0 ->
       exists a,
         partition_rows "continent" c (rows (df_q2_ranked df_active)) =
           [q2_row (rows df_active) c a] /\
         (exists r, In r (rows df_active) /\ regional_in c r /\
                    get "airline_name" r = a) /\
         forall r, In r (rows df_active) -> regional_in c r ->
           (named_count c (get "airline_name" r) (rows df_active)
            <= named_count c a (rows df_active))%Z) /\
    (forall c, (forall r, In r (rows df_active) -> ~ regional_in c r) ->
       partition_rows "continent" c (rows (df_q2_ranked df_active)) = []) /\
    rows (df_q2 df_active) = map q2_result (rows (df_q2_ranked df_active)).
Proof.
  intros df. split; [|split; [|split]].
  - intros v. apply df_q2_view_In.
  - intros c r0. apply df_q2_ranked_top.
  - intros c. apply df_q2_ranked_partition.
  - apply df_q2_rows.
Qed.

Lemma q2_top_regional_airline_witness :
  exists a,
    partition_rows "continent" (VStr "EU") (rows (df_q2_ranked q2_fixture)) =
      [q2_row (rows q2_fixture) (VStr "EU") a] /\
    (exists r, In r (rows q2_fixture) /\ regional_in (VStr "EU") r /\
               get "airline_name" r = a) /\
    forall r, In r (rows q2_fixture) -> regional_in (VStr "EU") r ->
      (named_count (VStr "EU") (get "airline_name" r) (rows q2_fixture)
       <= named_count (VStr "EU") a (rows q2_fixture))%Z.
Proof.
  destruct (q2_top_regional_airline q2_fixture) as [_ [H _]].
  apply (H (VStr "EU") (nth 0 (rows q2_fixture) [])).
  - apply nth_In. lazy. apply le_n.
  - split; [|split]; [lazy; reflexivity | lazy; reflexivity | discriminate].
Defined.

(** ** The enrichment joins *)

Lemma get_absent (c : string) (l : Row) :
  ~ In c (map fst l) -> get c l = VNull.
Proof.
  induction l as [|[c' v] l IH]; simpl; intros H; [reflexivity|].
  destruct (String.eqb c c') eqn:E.
  - apply String.eqb_eq in E. subst c'. tauto.
  - apply IH. tauto.
Qed.

Lemma get_app_in (c : string) (l r : Row) :
  In c (map fst l) -> get c (l ++ r) = get c l.
Proof.
  induction l as [|[c' v] l IH]; simpl; intros H; [contradiction|].
  destruct (String.eqb c c') eqn:E; [reflexivity|].
  apply IH. destruct H as [H|H]; [|exact H].
  subst c'. now rewrite String.eqb_refl in E.
Qed.

Lemma get_app_out (c : string) (l r : Row) :
  ~ In c (map fst l) -> get c (l ++ r) = get c r.
Proof.
  induction l as [|[c' v] l IH]; simpl; intros H; [reflexivity|].
  destruct (String.eqb c c') eqn:E.
  - apply String.eqb_eq in E. subst c'. tauto.
  - apply IH. tauto.
Qed.

Lemma get_null_row (c : string) (names : list string) :
  get c (null_row names) = VNull.
Proof.
  induction names as [|n names IH]; simpl; [reflexivity|].
  now destruct (String.eqb c n).
Qed.

Lemma get_drop_row_other (c : string) (names : list string) (r : Row) :
  mem c names = false -> get c (drop_row names r) = get c r.
Proof.
  intros Hc. induction r as [|[c' v] r IH]; simpl; [reflexivity|].
  destruct (String.eqb c c') eqn:E.
  - apply String.eqb_eq in E. subst c'. rewrite Hc. simpl.
    now rewrite String.eqb_refl.
  - destruct (mem c' names); simpl; [exact IH|]. now rewrite E.
Qed.

Lemma get_drop_row_in (c : string) (names : list string) (r : Row) :
  mem c names = true -> get c (drop_row names r) = VNull.
Proof.
  intros Hc. induction r as [|[c' v] r IH]; simpl; [reflexivity|].
  destruct (mem c' names) eqn:Hm; simpl; [exact IH|].
  destruct (String.eqb c c') eqn:E; [|exact IH].
  apply String.eqb_eq in E. subst c'. congruence.
Qed.

Lemma drop_row_names (c : string) (names : list string) (r : Row) :
  In c (map fst (drop_row names r)) <-> In c (map fst r) /\ mem c names = false.
Proof.
  unfold drop_row. rewrite !in_map_iff. split.
  - intros [p [E Hp]]. apply filter_In in Hp. destruct Hp as [Hp Hm].
    subst c. split; [now exists p|]. now destruct (mem (fst p) names).
  - intros [[p [E Hp]] Hm]. exists p. split; [exact E|].
    apply filter_In. split; [exact Hp|]. subst c. now rewrite Hm.
Qed.

Lemma mem_single (c key : string) : mem c [key] = String.eqb c key.
Proof. unfold mem. simpl. apply orb_false_r. Qed.

(** The key column first, then the other columns of the left row. *)
Lemma get_using_row (key c : string) (l x : Row) :
  In c (map fst l) ->
  get c ((key, get key l) :: drop_row [key] l ++ x) = get c l.
Proof.
  intros Hc. cbn [get]. destruct (String.eqb c key) eqn:E.
  - apply String.eqb_eq in E. now subst c.
  - rewrite get_app_in.
    + apply get_drop_row_other. now rewrite mem_single.
    + apply drop_row_names. split; [exact Hc|]. now rewrite mem_single.
Qed.

Lemma get_using_row_new (key c : string) (l : Row) (names : list string) :
  ~ In c (map fst l) ->
  get c ((key, get key l) :: drop_row [key] l ++ null_row names) = VNull.
Proof.
  intros Hc. cbn [get]. destruct (String.eqb c key) eqn:E.
  - apply String.eqb_eq in E. subst c. now apply get_absent.
  - rewrite get_app_out.
    + apply get_null_row.
    + rewrite drop_row_names. tauto.
Qed.

Lemma max_one_length {A : Type} (x : A) (t : list A) :
  length (x :: t) = Nat.max 1 (length (x :: t)).
Proof. simpl. now destruct (length t). Qed.

Lemma left_join_row_outer (cond : Row -> Row -> tribool) (right : DataFrame)
  (l : Row) :
  left_outer (matches cond right l) every_attribute l
             (left_join_row cond right l).
Proof.
  unfold left_outer, left_join_row.
  destruct (matches cond right l) as [|m ms] eqn:E.
  - split; [reflexivity|]. split.
    + intros o c [<-|[]] Hc _. now apply get_app_in.
    + intros _ o c [<-|[]] Hc. rewrite get_app_out by exact Hc.
      apply get_null_row.
  - split; [rewrite length_map; apply max_one_length|]. split.
    + intros o c Ho Hc _. apply in_map_iff in Ho. destruct Ho as [r [<- _]].
      now apply get_app_in.
    + discriminate.
Qed.

Lemma left_join_using_row_outer (key : string) (right : DataFrame) (l : Row) :
  left_outer (matches (using_cond key) right l) every_attribute l
             (left_join_using_row key right l).
Proof.
  unfold left_outer, left_join_using_row.
  destruct (matches (using_cond key) right l) as [|m ms] eqn:E.
  - split; [reflexivity|]. split.
    + intros o c [<-|[]] Hc _. now apply get_using_row.
    + intros _ o c [<-|[]] Hc. now apply get_using_row_new.
  - split; [rewrite length_map; apply max_one_length|]. split.
    + intros o c Ho Hc _. apply in_map_iff in Ho. destruct Ho as [r [<- _]].
      now apply get_using_row.
    + discriminate.
Qed.

Lemma mem_airline_code (c : string) :
  not_airline_code c ->
  mem c ["airline_icao"] = false /\ mem c ["airline_iata"] = false.
Proof.
  intros [H1 H2]. rewrite !mem_single. split; now apply String.eqb_neq.
Qed.

Lemma airline_rows_outer (csv : DataFrame) (l : Row) :
  left_outer (matches airline_cond (df_airlines csv) l) not_airline_code l
             (airline_rows csv l) /\
  forall o, In o (airline_rows csv l) ->
            get "airline_icao" o = VNull /\ get "airline_iata" o = VNull.
Proof.
  destruct (left_join_row_outer airline_cond (df_airlines csv) l)
    as [Hlen [Hkeep Hnew]].
  unfold airline_rows. split; [split; [|split]|].
  - now rewrite !length_map.
  - intros o c Ho Hc Hk. rewrite map_map in Ho. apply in_map_iff in Ho.
    destruct Ho as [j [<- Hj]]. destruct (mem_airline_code c Hk) as [H1 H2].
    rewrite !get_drop_row_other by assumption.
    now apply Hkeep.
  - intros E o c Ho Hc. rewrite map_map in Ho. apply in_map_iff in Ho.
    destruct Ho as [j [<- Hj]].
    destruct (mem c ["airline_iata"]) eqn:H2;
      [now apply get_drop_row_in|rewrite get_drop_row_other by exact H2].
    destruct (mem c ["airline_icao"]) eqn:H1;
      [now apply get_drop_row_in|rewrite get_drop_row_other by exact H1].
    now apply (Hnew E).
  - intros o Ho. rewrite map_map in Ho. apply in_map_iff in Ho.
    destruct Ho as [j [<- Hj]]. split.
    + rewrite get_drop_row_other by reflexivity.
      now apply get_drop_row_in.
    + now apply get_drop_row_in.
Qed.

Lemma map_flat_map {A B C : Type} (g : B -> C) (f : A -> list B) (l : list A) :
  map g (flat_map f l) = flat_map (fun x => map g (f x)) l.
Proof.
  induction l as [|x l IH]; simpl; [reflexivity|].
  now rewrite map_app, IH.
Qed.

Lemma add_airlines_dataframe_rows (csv df : DataFrame) :
  rows (add_airlines_dataframe csv df) = flat_map (airline_rows csv) (rows df).
Proof.
  unfold add_airlines_dataframe, join_airlines, drop, join_left. cbn [rows].
  now rewrite !map_flat_map.
Qed.

(** A catalog without two rows of the same key matches a row with at most
    one of its rows. *)
Lemma filter_key_le_1 {A B : Type} (f : A -> B) (p : A -> bool) (v : B)
  (l : list A) :
  NoDup (map f l) -> (forall x, p x = true -> f x = v) ->
  (length (filter p l) <= 1)%nat.
Proof.
  intros Hnd Hp. induction l as [|x l IH]; simpl; [lia|].
  simpl in Hnd. inversion_clear Hnd as [|? ? Hx Hl].
  destruct (p x) eqn:E; [|now apply IH].
  rewrite filter_none; [simpl; lia|].
  intros y Hy. destruct (p y) eqn:E'; [|reflexivity].
  exfalso. apply Hx. rewrite (Hp x E), <- (Hp y E'). now apply in_map.
Qed.

Lemma matches_using_le_1 (key : string) (right : DataFrame) (l : Row) :
  NoDup (map (get key) (rows right)) ->
  (length (matches (using_cond key) right l) <= 1)%nat.
Proof.
  intros Hnd. unfold matches.
  apply (filter_key_le_1 (get key) _ (get key l)); [exact Hnd|].
  intros r Hr. unfold using_cond in Hr.
  apply holds_sql_eq_iff in Hr. now destruct Hr as [-> _].
Qed.

Lemma flat_map_length_1 {A B : Type} (f : A -> list B) (l : list A) :
  (forall x, length (f x) = 1%nat) ->
  length (flat_map f l) = length l.
Proof.
  intros H. induction l as [|x l IH]; simpl; [reflexivity|].
  now rewrite length_app, H, IH.
Qed.

Lemma join_left_using_length (key : string) (left right : DataFrame) :
  NoDup (map (get key) (rows right)) ->
  length (rows (join_left_using key left right)) = length (rows left).
Proof.
  intros Hnd. unfold join_left_using. cbn [rows].
  apply flat_map_length_1. intros l.
  destruct (left_join_using_row_outer key right l) as [-> _].
  pose proof (matches_using_le_1 key right l Hnd). lia.
Qed.

Lemma get_replace (c name : string) (v : value) (r : Row) :
  c <> name ->
  get c (map (fun p => if String.eqb (fst p) name then (name, v) else p) r)
  = get c r.
Proof.
  intros Hc. apply String.eqb_neq in Hc.
  induction r as [|[c' w] r IH]; simpl; [reflexivity|].
  destruct (String.eqb c' name) eqn:E; simpl.
  - apply String.eqb_eq in E. subst c'. now rewrite Hc.
  - now rewrite IH.
Qed.

Lemma get_append (c name : string) (v : value) (r : Row) :
  c <> name -> get c (r ++ [(name, v)]) = get c r.
Proof.
  intros Hc. apply String.eqb_neq in Hc.
  induction r as [|[c' w] r IH]; simpl; [now rewrite Hc|].
  now rewrite IH.
Qed.

Lemma Forall2_map_r {A B : Type} (P : A -> B -> Prop) (f : A -> B)
  (l : list A) :
  (forall x, P x (f x)) -> Forall2 P l (map f l).
Proof. intros H. induction l; simpl; constructor; auto. Qed.

Lemma withColumn_keeps (name : string) (e : Row -> value) (df : DataFrame) :
  Forall2 (fun l o => forall c, c <> name -> get c o = get c l)
          (rows df) (rows (withColumn name e df)).
Proof.
  unfold withColumn. destruct (mem name (columns df)); cbn [rows];
    apply Forall2_map_r; intros l c Hc.
  - now apply get_replace.
  - now apply get_append.
Qed.

(** C2, as stated, fails twice.  A catalog that lists the destination
    airport twice gives the one cleaned flight two rows in the output of the
    destination stage; and the flight of an airline that the catalog does
    not list, which had the codes ZZ and ZZZ, has neither code after
    enrichment. *)
Lemma enrichment_repeats_and_forgets :
  length (rows (clean_dataframe unlisted_airline)) = 1%nat /\
  length (rows (join_destination frankfurt_twice
                  (clean_dataframe unlisted_airline))) = 2%nat /\
  map (fun r => (get "id" r, get "airline_iata" r, get "airline_icao" r))
      (rows (clean_dataframe unlisted_airline))
    = [(VStr "f2", VStr "ZZ", VStr "ZZZ")] /\
  map (fun r => (get "id" r, get "airline_name" r,
                 get "airline_iata" r, get "airline_icao" r))
      (rows (df_enriched unlisted_airline paris_frankfurt_airports
               planes_csv airlines_csv))
    = [(VStr "f2", VNull, VNull, VNull)].
Proof. repeat split; lazy; reflexivity. Qed.

(** C2, amended.  No enrichment stage drops a flight.  The two airport
    stages and the aircraft stage give a flight one output row per catalog
    row that matches it, and one row when none matches; every output row
    keeps all the attributes of the flight, and when no catalog row matches,
    the attributes that the flight did not have are NULL.  An airport stage
    gives every flight exactly one row when its catalog holds no two rows of
    the same airport code.  The distance stage keeps the rows, and in each
    every attribute other than the distance.  The airline stage gives the
    same number of rows as a left outer join, with the attributes of the
    flight other than [airline_icao] and [airline_iata], which every output
    row has lost. *)
Theorem enrichment_is_left_outer :
  forall airports planes airlines df : DataFrame,
    (rows (join_destination airports df) =
       flat_map (left_join_using_row "destination_airport_iata"
                   (df_airport_destination airports)) (rows df) /\
     (forall l,
        left_outer (matches (using_cond "destination_airport_iata")
                      (df_airport_destination airports) l)
          every_attribute l
          (left_join_using_row "destination_airport_iata"
             (df_airport_destination airports) l)) /\
     (NoDup (map (get "destination_airport_iata")
               (rows (df_airport_destination airports))) ->
      length (rows (join_destination airports df)) = length (rows df))) /\
    (rows (join_origin airports df) =
       flat_map (left_join_using_row "origin_airport_iata"
                   (df_airport_origin airports)) (rows df) /\
     (forall l,
        left_outer (matches (using_cond "origin_airport_iata")
                      (df_airport_origin airports) l)
          every_attribute l
          (left_join_using_row "origin_airport_iata"
             (df_airport_origin airports) l)) /\
     (NoDup (map (get "origin_airport_iata")
               (rows (df_airport_origin airports))) ->
      length (rows (join_origin airports df)) = length (rows df))) /\
    Forall2 (fun l o => forall c, c <> "distance" -> get c o = get c l)
            (rows df) (rows (with_distance df)) /\
    (rows (add_aircrafts_dataframe planes df) =
       flat_map (left_join_row aircraft_cond (df_aircrafts planes)) (rows df) /\
     forall l,
       left_outer (matches aircraft_cond (df_aircrafts planes) l)
         every_attribute l
         (left_join_row aircraft_cond (df_aircrafts planes) l)) /\
    (rows (add_airlines_dataframe airlines df) =
       flat_map (airline_rows airlines) (rows df) /\
     forall l,
       left_outer (matches airline_cond (df_airlines airlines) l)
         not_airline_code l (airline_rows airlines l) /\
       forall o, In o (airline_rows airlines l) ->
                 get "airline_icao" o = VNull /\ get "airline_iata" o = VNull).
Proof.
  intros airports planes airlines df.
  split; [|split; [|split; [|split]]].
  - split; [reflexivity|]. split.
    + intros l. apply left_join_using_row_outer.
    + apply join_left_using_length.
  - split; [reflexivity|]. split.
    + intros l. apply left_join_using_row_outer.
    + apply join_left_using_length.
  - apply withColumn_keeps.
  - split; [reflexivity|]. intros l. apply left_join_row_outer.
  - split; [apply add_airlines_dataframe_rows|].
    intros l. apply airline_rows_outer.
Qed.

Lemma enrichment_is_left_outer_witness :
  length (rows (join_destination paris_frankfurt_airports
                  (clean_dataframe unlisted_airline)))
  = length (rows (clean_dataframe unlisted_airline)).
Proof.
  destruct (enrichment_is_left_outer paris_frankfurt_airports planes_csv
              airlines_csv (clean_dataframe unlisted_airline))
    as [[_ [_ H]] _].
  apply H. lazy.
  repeat constructor; simpl; intuition discriminate.
Defined.

(** ** The name of the snapshot file *)

Lemma string_of_uint_digits (d : Decimal.uint) :
  all_digits (DecimalString.NilEmpty.string_of_uint d) = true.
Proof. induction d; simpl; trivial. Qed.

Lemma str_digits (n : N) : all_digits (str n) = true.
Proof. apply string_of_uint_digits. Qed.

Lemma str_inj (a b : N) : str a = str b -> a = b.
Proof.
  unfold str. intros E. apply DecimalN.Unsigned.to_uint_inj.
  apply (f_equal DecimalString.NilEmpty.uint_of_string) in E.
  rewrite !DecimalString.NilEmpty.usu in E. now injection E.
Qed.

(** Two numerals followed by something that is not a digit: equal wholes
    have equal parts. *)
Lemma digits_then_other (u v r r' : string) :
  all_digits u = true -> all_digits v = true ->
  no_digit_first r -> no_digit_first r' ->
  (u ++ r = v ++ r')%string -> u = v /\ r = r'.
Proof.
  revert v. induction u as [|c u IH]; intros [|c' v] Hu Hv Hr Hr' E;
    simpl in *.
  - now split.
  - subst r. simpl in Hr. apply andb_prop in Hv. destruct Hv as [Hv _].
    congruence.
  - subst r'. simpl in Hr'. apply andb_prop in Hu. destruct Hu as [Hu _].
    congruence.
  - injection E as -> E.
    apply andb_prop in Hu. apply andb_prop in Hv.
    destruct (IH v) as [-> ->]; tauto.
Qed.

Lemma str_then_other (a b : N) (r r' : string) :
  no_digit_first r -> no_digit_first r' ->
  (str a ++ r = str b ++ r')%string -> a = b /\ r = r'.
Proof.
  intros Hr Hr' E.
  destruct (digits_then_other (str a) (str b) r r') as [Eab Er];
    try apply str_digits; trivial.
  split; [now apply str_inj | exact Er].
Qed.

Lemma append_inj_l (p x y : string) : (p ++ x = p ++ y)%string -> x = y.
Proof.
  induction p as [|c p IH]; simpl; intros E; [exact E|].
  injection E as E. now apply IH.
Qed.

Lemma str_two_digits (d : N) :
  (d <= 9)%N -> str (20 + d) = ("2" ++ str d)%string.
Proof.
  intros H.
  assert (E : (d = 0 \/ d = 1 \/ d = 2 \/ d = 3 \/ d = 4 \/ d = 5 \/ d = 6
               \/ d = 7 \/ d = 8 \/ d = 9)%N) by lia.
  repeat (destruct E as [->|E]; [reflexivity|]). now subst d.
Qed.

(** The directories of the name tell the date: two names are equal only for
    the same year, month and day. *)
Theorem get_file_name_date :
  forall t1 t2 : datetime,
    get_file_name t1 = get_file_name t2 ->
    year t1 = year t2 /\ month t1 = month t2 /\ day t1 = day t2.
Proof.
  intros t1 t2 E. unfold get_file_name in E. cbv zeta in E.
  apply (append_inj_l "Flights/rawzone/tech_year=") in E.
  apply str_then_other in E; [|reflexivity|reflexivity].
  destruct E as [Ey E].
  apply (append_inj_l "/tech_month=") in E.
  apply str_then_other in E; [|reflexivity|reflexivity].
  destruct E as [_ E].
  apply (append_inj_l "-") in E.
  apply str_then_other in E; [|reflexivity|reflexivity].
  destruct E as [Em E].
  apply (append_inj_l "/tech_day=") in E.
  apply str_then_other in E; [|reflexivity|reflexivity].
  destruct E as [_ E].
  apply (append_inj_l "-") in E.
  apply str_then_other in E; [|reflexivity|reflexivity].
  destruct E as [_ E].
  apply (append_inj_l "-") in E.
  apply str_then_other in E; [|reflexivity|reflexivity].
  tauto.
Qed.

Lemma get_file_name_date_witness :
  year (mkDatetime 2024 3 9 14 5 7 120000) = year (mkDatetime 2024 3 9 14 5 7 125000).
Proof.
  apply (get_file_name_date (mkDatetime 2024 3 9 14 5 7 120000)
                            (mkDatetime 2024 3 9 14 5 7 125000)).
  vm_compute. reflexivity.
Defined.

(** The time of day is printed without padding and without separators, so
    that different times of one day can give the same name: 01:2d and 12:0d,
    for every digit d, the seconds and the hundredths being the same. *)
Theorem get_file_name_collision :
  forall (Y M D s us d : N),
    (d <= 9)%N ->
    get_file_name (mkDatetime Y M D 1 (20 + d) s us)
    = get_file_name (mkDatetime Y M D 12 d s us).
Proof.
  intros Y M D s us d Hd. unfold get_file_name.
  cbn [year month day hour minute second microsecond].
  rewrite (str_two_digits d Hd).
  change (str 1) with "1". change (str 12) with "12".
  repeat (apply (f_equal2 append); [reflexivity|]).
  simpl. reflexivity.
Qed.

Lemma get_file_name_collision_witness :
  get_file_name (mkDatetime 2024 3 9 1 23 7 120000)
  = get_file_name (mkDatetime 2024 3 9 12 3 7 120000).
Proof.
  apply (get_file_name_collision 2024 3 9 7 120000 3). discriminate.
Defined.

(** ** Q1 and Q5: the group of greatest count *)

Lemma descending_head (c : string) (h : Row) (t : list Row) :
  descending c (h :: t) -> forall r, In r (h :: t) -> (cnt c r <= cnt c h)%Z.
Proof.
  intros [Hh _] r [<-|Hr]; [lia|].
  rewrite Forall_forall in Hh. now apply Hh.
Qed.

(** The first row of the descending sort is a row of greatest count. *)
Lemma sort_desc_first (c : string) (rs : list Row) :
  rs <> [] ->
  exists h, firstn 1 (sort_desc c rs) = [h] /\ In h rs /\
            forall r, In r rs -> (cnt c r <= cnt c h)%Z.
Proof.
  intros Hne.
  pose proof (sort_desc_descending c rs) as Hd.
  pose proof (sort_desc_length c rs) as Hl.
  destruct (sort_desc c rs) as [|h t] eqn:E.
  - destruct rs; [contradiction|discriminate].
  - exists h. split; [reflexivity|]. split.
    + apply (sort_desc_In c). rewrite E. now left.
    + intros r Hr. apply (descending_head c h t Hd).
      rewrite <- E. now apply sort_desc_In.
Qed.

Lemma count_col_partition_named (c : string) (a : value) (rs : list Row) :
  count_col c (partition_rows c a rs) = VInt (count_named c a rs).
Proof.
  apply count_col_same. intros r Hr.
  apply filter_In in Hr. destruct Hr as [_ Hr]. now apply value_eqb_eq.
Qed.

Lemma count_named_pos (c : string) (r : Row) (rs : list Row) :
  In r rs -> get c r <> VNull ->
  (1 <= count_named c (get c r) rs)%Z.
Proof.
  intros Hr Hn. unfold count_named.
  destruct (get c r) eqn:E; [contradiction| | |]; simpl;
    (assert (Hin : In r (partition_rows c (get c r) rs))
       by (apply filter_In; split; [exact Hr | apply value_eqb_refl]);
     rewrite E in Hin;
     match goal with
     | |- context [length ?l] => destruct l; [contradiction | simpl; lia]
     end).
Qed.

(** Grouping on one column, counting it and keeping the first row in
    descending order of the count. *)
Lemma top_group (key out : string) (df : DataFrame) :
  String.eqb out key = false ->
  rows df <> [] ->
  exists a,
    rows (limit 1 (orderBy_desc out (groupBy_agg [key] out (count_col key) df)))
    = [[(key, a); (out, VInt (count_named key a (rows df)))]] /\
    In a (map (get key) (rows df)) /\
    (forall r, In r (rows df) ->
       (count_named key (get key r) (rows df)
        <= count_named key a (rows df))%Z) /\
    ((exists r, In r (rows df) /\ get key r <> VNull) -> a <> VNull).
Proof.
  intros Hout Hne.
  unfold limit, orderBy_desc. cbn [rows].
  rewrite groupBy_agg_single.
  set (G := map _ (distinct value_eqb (map (get key) (rows df)))).
  assert (HG : forall g, In g G <->
             exists a, In a (map (get key) (rows df)) /\
                       g = [(key, a); (out, VInt (count_named key a (rows df)))]).
  { intros g. unfold G. rewrite in_map_iff. split.
    - intros [a [<- Ha]]. exists a.
      apply (proj1 (distinct_In value_eqb value_eqb_eq _ _)) in Ha.
      split; [exact Ha|]. now rewrite count_col_partition_named.
    - intros [a [Ha ->]]. exists a.
      rewrite count_col_partition_named. split; [reflexivity|].
      now apply (proj2 (distinct_In value_eqb value_eqb_eq _ _)). }
  assert (Hcnt : forall a n, cnt out [(key, a); (out, VInt n)] = n).
  { intros a n. unfold cnt. cbn [get]. rewrite Hout, String.eqb_refl.
    reflexivity. }
  assert (HGne : G <> []).
  { destruct (rows df) as [|r rs] eqn:E; [contradiction|].
    intros HG0.
    assert (Hin : In [(key, get key r);
                      (out, VInt (count_named key (get key r) (r :: rs)))] G)
      by (apply HG; exists (get key r); split; [now left | reflexivity]).
    rewrite HG0 in Hin. contradiction. }
  destruct (sort_desc_first out G HGne) as [h [Eh [Hh Hmax]]].
  apply HG in Hh. destruct Hh as [a [Ha ->]].
  exists a. split; [exact Eh|]. split; [exact Ha|].
  assert (Hle : forall r, In r (rows df) ->
            (count_named key (get key r) (rows df)
             <= count_named key a (rows df))%Z).
  { intros r Hr.
    specialize (Hmax [(key, get key r);
                      (out, VInt (count_named key (get key r) (rows df)))]).
    rewrite !Hcnt in Hmax. apply Hmax. apply HG.
    exists (get key r). split; [now apply in_map | reflexivity]. }
  split; [exact Hle|].
  intros [r [Hr Hn]] ->.
  specialize (Hle r Hr).
  pose proof (count_named_pos key r (rows df) Hr Hn).
  unfold count_named at 2 in Hle. simpl in Hle. lia.
Qed.

(** Q1 returns, for an active set that is not empty, one row: an airline
    name of the set with the number of its flights, which no other airline
    name of the set exceeds.  The rows without airline name count 0, so
    that the row has an airline name as soon as a flight has one. *)
Theorem q1_airline_of_most_flights :
  forall df_active : DataFrame,
    rows df_active <> [] ->
    exists a,
      rows (df_q1 df_active)
      = [[("airline_name", a);
          ("nb_flights", VInt (count_named "airline_name" a (rows df_active)))]]
      /\ In a (map (get "airline_name") (rows df_active))
      /\ (forall r, In r (rows df_active) ->
            (count_named "airline_name" (get "airline_name" r) (rows df_active)
             <= count_named "airline_name" a (rows df_active))%Z)
      /\ ((exists r, In r (rows df_active) /\ get "airline_name" r <> VNull) ->
          a <> VNull).
Proof.
  intros df Hne. unfold df_q1. now apply top_group.
Qed.

Lemma q1_airline_of_most_flights_witness :
  exists a,
    rows (df_q1 q2_fixture_mixed)
    = [[("airline_name", a);
        ("nb_flights", VInt (count_named "airline_name" a (rows q2_fixture_mixed)))]]
    /\ In a (map (get "airline_name") (rows q2_fixture_mixed))
    /\ (forall r, In r (rows q2_fixture_mixed) ->
          (count_named "airline_name" (get "airline_name" r) (rows q2_fixture_mixed)
           <= count_named "airline_name" a (rows q2_fixture_mixed))%Z)
    /\ ((exists r, In r (rows q2_fixture_mixed) /\ get "airline_name" r <> VNull) ->
        a <> VNull).
Proof.
  apply (q1_airline_of_most_flights q2_fixture_mixed).
  intros E. apply (f_equal (@length Row)) in E. lazy in E. discriminate.
Defined.

(** Q5 does the same with the aircraft name, and names the two columns
    [aircraft] and [number_of_flights]. *)
Theorem q5_aircraft_of_most_flights :
  forall df_active : DataFrame,
    rows df_active <> [] ->
    exists a,
      rows (df_q5 df_active)
      = [[("aircraft", a);
          ("number_of_flights",
           VInt (count_named "aircraft_name" a (rows df_active)))]]
      /\ In a (map (get "aircraft_name") (rows df_active))
      /\ (forall r, In r (rows df_active) ->
            (count_named "aircraft_name" (get "aircraft_name" r) (rows df_active)
             <= count_named "aircraft_name" a (rows df_active))%Z)
      /\ ((exists r, In r (rows df_active) /\ get "aircraft_name" r <> VNull) ->
          a <> VNull).
Proof.
  intros df Hne.
  destruct (top_group "aircraft_name" "count(aircraft_name)" df eq_refl Hne)
    as [a [E H]].
  exists a. split; [|exact H].
  unfold df_q5, withColumnRenamed. cbn [rows]. rewrite E. reflexivity.
Qed.

Lemma q5_aircraft_of_most_flights_witness :
  exists a,
    rows (df_q5 q2_fixture_mixed)
    = [[("aircraft", a);
        ("number_of_flights",
         VInt (count_named "aircraft_name" a (rows q2_fixture_mixed)))]]
    /\ In a (map (get "aircraft_name") (rows q2_fixture_mixed))
    /\ (forall r, In r (rows q2_fixture_mixed) ->
          (count_named "aircraft_name" (get "aircraft_name" r) (rows q2_fixture_mixed)
           <= count_named "aircraft_name" a (rows q2_fixture_mixed))%Z)
    /\ ((exists r, In r (rows q2_fixture_mixed) /\ get "aircraft_name" r <> VNull) ->
        a <> VNull).
Proof.
  apply (q5_aircraft_of_most_flights q2_fixture_mixed).
  intros E. apply (f_equal (@length Row)) in E. lazy in E. discriminate.
Defined.

(** ** [get_active_flights] and the enrichment *)

Section KeptColumn.
Variable c : string.
Variable keep : value -> bool.

Lemma filter_flat_map_kept (f : Row -> list Row) (ls : list Row) :
  (forall l o, In c (map fst l) -> In o (f l) -> get c o = get c l) ->
  Forall (fun r => In c (map fst r)) ls ->
  filter (fun r => keep (get c r)) (flat_map f ls)
  = flat_map f (filter (fun r => keep (get c r)) ls).
Proof.
  intros Hf Hls. induction Hls as [|l ls Hl Hls IH]; [reflexivity|].
  cbn [flat_map filter]. rewrite filter_app, IH.
  destruct (keep (get c l)) eqn:E.
  - cbn [flat_map]. f_equal. apply filter_all.
    intros o Ho. now rewrite (Hf l o Hl Ho).
  - rewrite filter_none; [reflexivity|].
    intros o Ho. now rewrite (Hf l o Hl Ho).
Qed.

Lemma flat_map_column (f : Row -> list Row) (ls : list Row) :
  (forall l o, In c (map fst l) -> In o (f l) -> In c (map fst o)) ->
  Forall (fun r => In c (map fst r)) ls ->
  Forall (fun r => In c (map fst r)) (flat_map f ls).
Proof.
  intros Hf Hls. rewrite Forall_forall in Hls |- *.
  intros o Ho. apply in_flat_map in Ho. destruct Ho as [l [Hl Ho]].
  apply (Hf l o); [now apply Hls | exact Ho].
Qed.

Lemma filter_column (p : Row -> bool) (ls : list Row) :
  Forall (fun r => In c (map fst r)) ls ->
  Forall (fun r => In c (map fst r)) (filter p ls).
Proof.
  rewrite !Forall_forall. intros H r Hr. apply filter_In in Hr. now apply H.
Qed.

Lemma using_row_column (key : string) (right : DataFrame) (l o : Row) :
  In c (map fst l) -> In o (left_join_using_row key right l) ->
  In c (map fst o).
Proof.
  intros Hc Ho.
  assert (H : forall x : Row,
            In c (map fst ((key, get key l) :: drop_row [key] l ++ x))).
  { intros x. cbn [map fst]. destruct (String.eqb c key) eqn:E.
    - apply String.eqb_eq in E. now left.
    - right. rewrite map_app. apply in_or_app. left.
      apply drop_row_names. split; [exact Hc|]. now rewrite mem_single. }
  unfold left_join_using_row in Ho.
  destruct (matches (using_cond key) right l) as [|m ms].
  - destruct Ho as [<-|[]]. apply H.
  - apply in_map_iff in Ho. destruct Ho as [r [<- _]]. apply H.
Qed.

Lemma join_row_column (cond : Row -> Row -> tribool) (right : DataFrame)
  (l o : Row) :
  In c (map fst l) -> In o (left_join_row cond right l) -> In c (map fst o).
Proof.
  intros Hc Ho. unfold left_join_row in Ho.
  destruct (matches cond right l) as [|m ms].
  - destruct Ho as [<-|[]]. rewrite map_app. apply in_or_app. now left.
  - apply in_map_iff in Ho. destruct Ho as [r [<- _]].
    rewrite map_app. apply in_or_app. now left.
Qed.

Lemma airline_rows_column (csv : DataFrame) (l o : Row) :
  not_airline_code c ->
  In c (map fst l) -> In o (airline_rows csv l) -> In c (map fst o).
Proof.
  intros Hk Hc Ho. destruct (mem_airline_code c Hk) as [H1 H2].
  unfold airline_rows in Ho. rewrite map_map in Ho.
  apply in_map_iff in Ho. destruct Ho as [j [<- Hj]].
  apply drop_row_names. split; [|exact H2].
  apply drop_row_names. split; [|exact H1].
  now apply (join_row_column airline_cond (df_airlines csv) l).
Qed.

End KeptColumn.

Lemma replace_names (name : string) (v : value) (r : Row) :
  map fst (map (fun p => if String.eqb (fst p) name then (name, v) else p) r)
  = map fst r.
Proof.
  rewrite map_map. apply map_ext. intros [c' w]. cbn [fst].
  destruct (String.eqb c' name) eqn:E; [|reflexivity].
  apply String.eqb_eq in E. now subst c'.
Qed.

(** The rows of [withColumn]: a function of the columns and of each row. *)
Lemma withColumn_rows (name : string) (e : Row -> value) (df : DataFrame) :
  rows (withColumn name e df)
  = map (fun r =>
           if mem name (columns df)
           then map (fun p => if String.eqb (fst p) name then (name, e r) else p) r
           else r ++ [(name, e r)]) (rows df).
Proof. unfold withColumn. now destruct (mem name (columns df)). Qed.

Lemma withColumn_columns (name : string) (e : Row -> value) (df : DataFrame) :
  columns (withColumn name e df)
  = if mem name (columns df) then columns df else columns df ++ [name].
Proof. unfold withColumn. now destruct (mem name (columns df)). Qed.

Lemma DataFrame_eq (a b : DataFrame) :
  columns a = columns b -> rows a = rows b -> a = b.
Proof. destruct a, b. simpl. now intros -> ->. Qed.

Section ActiveStages.
Variable df : DataFrame.
Hypothesis Hcol : has_column "on_ground" df.

Lemma active_clean :
  get_active_flights (clean_dataframe df) = clean_dataframe (get_active_flights df)
  /\ has_column "on_ground" (clean_dataframe df).
Proof.
  split.
  - apply DataFrame_eq; [reflexivity|].
    unfold get_active_flights, clean_dataframe, filter_df. cbn [rows].
    rewrite !filter_filter. apply filter_ext. intros r.
    destruct (holds (not3 (isin (get "destination_airport_iata" r) placeholders))),
             (holds (not3 (isin (get "origin_airport_iata" r) placeholders))),
             (holds (sql_eq (get "on_ground" r) (VInt 0))); reflexivity.
  - unfold has_column, clean_dataframe, filter_df. cbn [rows].
    now do 2 apply filter_column.
Qed.

Lemma active_join_using (key : string) (right : DataFrame) :
  get_active_flights (join_left_using key df right)
  = join_left_using key (get_active_flights df) right
  /\ has_column "on_ground" (join_left_using key df right).
Proof.
  split.
  - apply DataFrame_eq; [reflexivity|].
    unfold get_active_flights, join_left_using, filter_df. cbn [rows].
    apply (filter_flat_map_kept "on_ground"
             (fun v => holds (sql_eq v (VInt 0)))); [|exact Hcol].
    intros l o Hl Ho.
    destruct (left_join_using_row_outer key right l) as [_ [Hk _]].
    now apply Hk.
  - unfold has_column, join_left_using. cbn [rows].
    apply flat_map_column; [|exact Hcol].
    intros l o. apply using_row_column.
Qed.

Lemma active_join_left (cond : Row -> Row -> tribool) (right : DataFrame) :
  get_active_flights (join_left cond df right)
  = join_left cond (get_active_flights df) right
  /\ has_column "on_ground" (join_left cond df right).
Proof.
  split.
  - apply DataFrame_eq; [reflexivity|].
    unfold get_active_flights, join_left, filter_df. cbn [rows].
    apply (filter_flat_map_kept "on_ground"
             (fun v => holds (sql_eq v (VInt 0)))); [|exact Hcol].
    intros l o Hl Ho.
    destruct (left_join_row_outer cond right l) as [_ [Hk _]].
    now apply Hk.
  - unfold has_column, join_left. cbn [rows].
    apply flat_map_column; [|exact Hcol].
    intros l o. apply join_row_column.
Qed.

Lemma active_airlines (csv : DataFrame) :
  get_active_flights (add_airlines_dataframe csv df)
  = add_airlines_dataframe csv (get_active_flights df)
  /\ has_column "on_ground" (add_airlines_dataframe csv df).
Proof.
  assert (Hk : not_airline_code "on_ground") by (split; discriminate).
  split.
  - apply DataFrame_eq; [reflexivity|].
    change (rows (get_active_flights (add_airlines_dataframe csv df)))
      with (filter (fun r => holds (sql_eq (get "on_ground" r) (VInt 0)))
                   (rows (add_airlines_dataframe csv df))).
    rewrite !add_airlines_dataframe_rows.
    apply (filter_flat_map_kept "on_ground"
             (fun v => holds (sql_eq v (VInt 0)))); [|exact Hcol].
    intros l o Hl Ho.
    destruct (airline_rows_outer csv l) as [[_ [Hkeep _]] _].
    now apply Hkeep.
  - unfold has_column. rewrite add_airlines_dataframe_rows.
    apply flat_map_column; [|exact Hcol].
    intros l o. now apply airline_rows_column.
Qed.

Lemma active_with_distance :
  get_active_flights (with_distance df) = with_distance (get_active_flights df)
  /\ has_column "on_ground" (with_distance df).
Proof.
  split.
  - apply DataFrame_eq.
    + unfold get_active_flights, filter_df, with_distance. cbn [columns].
      now rewrite !withColumn_columns.
    + unfold get_active_flights, filter_df, with_distance. cbn [rows].
      rewrite !withColumn_rows. cbn [rows columns].
      rewrite map_filter_comm. f_equal. apply filter_ext. intros r.
      destruct (mem "distance" (columns df)).
      * now rewrite get_replace by discriminate.
      * now rewrite get_append by discriminate.
  - unfold has_column, with_distance. rewrite withColumn_rows.
    unfold has_column in Hcol. rewrite Forall_forall in Hcol |- *.
    intros o Ho. apply in_map_iff in Ho. destruct Ho as [r [<- Hr]].
    destruct (mem "distance" (columns df)).
    + rewrite replace_names. now apply Hcol.
    + rewrite map_app. apply in_or_app. left. now apply Hcol.
Qed.

End ActiveStages.

(** Selecting the active flights after the enrichment or before it gives
    the same DataFrame, for flights that have an [on_ground] column: no
    stage of the enrichment changes that column, and every stage treats each
    flight independently of the others. *)
Theorem active_flights_before_or_after :
  forall flights airports planes airlines : DataFrame,
    has_column "on_ground" flights ->
    df_active_of flights airports planes airlines
    = df_enriched (get_active_flights flights) airports planes airlines.
Proof.
  intros flights airports planes airlines H0.
  unfold df_active_of, df_enriched, add_distance_dataframe,
    add_aircrafts_dataframe, join_origin, join_destination.
  cbv zeta.
  destruct (active_clean flights H0) as [E1 H1].
  destruct (active_join_using _ H1 "destination_airport_iata"
              (df_airport_destination airports)) as [E2 H2].
  destruct (active_join_using _ H2 "origin_airport_iata"
              (df_airport_origin airports)) as [E3 H3].
  destruct (active_with_distance _ H3) as [E4 H4].
  destruct (active_join_left _ H4 aircraft_cond (df_aircrafts planes))
    as [E5 H5].
  destruct (active_airlines _ H5 airlines) as [E6 _].
  now rewrite E6, E5, E4, E3, E2, E1.
Qed.

Lemma active_flights_before_or_after_witness :
  df_active_of mostly_unlisted paris_frankfurt_airports planes_csv airlines_csv
  = df_enriched (get_active_flights mostly_unlisted) paris_frankfurt_airports
      planes_csv airlines_csv.
Proof.
  apply active_flights_before_or_after.
  unfold has_column. repeat constructor; simpl; tauto.
Defined.

(** ** Columns of rows through [drop], [withColumn] and [withColumnRenamed] *)

Lemma mem_In (c : string) (names : list string) :
  mem c names = true <-> In c names.
Proof.
  unfold mem. rewrite existsb_exists. split.
  - intros [x [Hx E]]. apply String.eqb_eq in E. now subst x.
  - intros H. exists c. split; [exact H | apply String.eqb_refl].
Qed.

Lemma mem_not_In (c : string) (names : list string) :
  mem c names = false <-> ~ In c names.
Proof.
  rewrite <- mem_In. destruct (mem c names); split; congruence.
Qed.

Lemma get_replace_same (name : string) (v : value) (r : Row) :
  In name (map fst r) ->
  get name (map (fun p => if String.eqb (fst p) name then (name, v) else p) r)
  = v.
Proof.
  induction r as [|[c w] r IH]; simpl; intros H; [contradiction|].
  destruct (String.eqb c name) eqn:E; simpl.
  - now rewrite String.eqb_refl.
  - rewrite String.eqb_sym, E. apply IH.
    destruct H as [H|H]; [|exact H]. subst c.
    now rewrite String.eqb_refl in E.
Qed.

Lemma get_append_new (name : string) (v : value) (r : Row) :
  ~ In name (map fst r) -> get name (r ++ [(name, v)]) = v.
Proof.
  intros H. rewrite get_app_out by exact H. simpl.
  now rewrite String.eqb_refl.
Qed.

(** *** [withColumn] *)

Lemma withColumn_rows_cell (name : string) (e : Row -> value) (df : DataFrame) :
  rows (withColumn name e df)
  = map (fun r => with_cell (columns df) name (e r) r) (rows df).
Proof. unfold with_cell. apply withColumn_rows. Qed.

Lemma with_cell_other (cols : list string) (name c : string) (v : value)
  (r : Row) :
  c <> name -> get c (with_cell cols name v r) = get c r.
Proof.
  intros Hc. unfold with_cell. destruct (mem name cols).
  - now apply get_replace.
  - now apply get_append.
Qed.

Lemma with_cell_same (cols : list string) (name : string) (v : value)
  (r : Row) :
  map fst r = cols -> get name (with_cell cols name v r) = v.
Proof.
  intros Hr. unfold with_cell. destruct (mem name cols) eqn:E.
  - apply get_replace_same. rewrite Hr. now apply mem_In.
  - apply get_append_new. rewrite Hr. now apply mem_not_In.
Qed.

Lemma with_cell_names (cols : list string) (name : string) (v : value)
  (r : Row) :
  map fst (with_cell cols name v r)
  = if mem name cols then map fst r else map fst r ++ [name].
Proof.
  unfold with_cell. destruct (mem name cols).
  - apply replace_names.
  - now rewrite map_app.
Qed.

Lemma with_cell_fresh (cols : list string) (name c : string) (v : value)
  (r : Row) :
  c <> name -> fresh c r -> fresh c (with_cell cols name v r).
Proof.
  unfold fresh. intros Hc Hr. rewrite with_cell_names.
  destruct (mem name cols); [exact Hr|].
  rewrite in_app_iff. simpl. intuition congruence.
Qed.

Lemma withColumn_well_formed (name : string) (e : Row -> value)
  (df : DataFrame) :
  well_formed df -> well_formed (withColumn name e df).
Proof.
  unfold well_formed. rewrite withColumn_rows_cell, withColumn_columns.
  rewrite !Forall_forall. intros H o Ho.
  apply in_map_iff in Ho. destruct Ho as [r [<- Hr]].
  rewrite with_cell_names, (H r Hr). reflexivity.
Qed.

(** *** [withColumnRenamed] *)

Lemma withColumnRenamed_rows (old new : string) (df : DataFrame) :
  rows (withColumnRenamed old new df) = map (rename_row old new) (rows df).
Proof. reflexivity. Qed.

Lemma rename_row_other (old new c : string) (r : Row) :
  c <> old -> c <> new -> get c (rename_row old new r) = get c r.
Proof.
  intros Ho Hn. induction r as [|[c' w] r IH]; simpl; [reflexivity|].
  unfold rename at 1. destruct (String.eqb c' old) eqn:E.
  - apply String.eqb_eq in E. subst c'.
    apply String.eqb_neq in Ho, Hn. rewrite Ho, Hn. exact IH.
  - now rewrite IH.
Qed.

Lemma rename_row_new (old new : string) (r : Row) :
  fresh new r -> get new (rename_row old new r) = get old r.
Proof.
  unfold fresh. induction r as [|[c' w] r IH]; simpl; intros H; [reflexivity|].
  unfold rename at 1. destruct (String.eqb c' old) eqn:E.
  - apply String.eqb_eq in E. subst c'.
    now rewrite !String.eqb_refl.
  - assert (Hn : String.eqb new c' = false)
      by (apply String.eqb_neq; intros ->; tauto).
    rewrite Hn, (String.eqb_sym old c'), E. apply IH. tauto.
Qed.

Lemma rename_row_fresh (old new c : string) (r : Row) :
  c <> new -> fresh c r -> fresh c (rename_row old new r).
Proof.
  unfold fresh, rename_row. intros Hc Hr. rewrite map_map. cbn [fst].
  rewrite in_map_iff. intros [[c' w] [E Hin]]. cbn [fst] in E.
  unfold rename in E. destruct (String.eqb c' old); [congruence|].
  subst c'. apply Hr. apply in_map_iff. now exists (c, w).
Qed.

(** *** [drop] and [filter] *)

Lemma drop_row_fresh (names : list string) (c : string) (r : Row) :
  fresh c r -> fresh c (drop_row names r).
Proof. unfold fresh. rewrite drop_row_names. tauto. Qed.

Lemma drop_row_names_eq (names : list string) (r : Row) :
  map fst (drop_row names r)
  = filter (fun c => negb (mem c names)) (map fst r).
Proof.
  unfold drop_row. induction r as [|[c w] r IH]; simpl; [reflexivity|].
  destruct (mem c names); simpl; now rewrite IH.
Qed.

Lemma drop_well_formed (names : list string) (df : DataFrame) :
  well_formed df -> well_formed (drop names df).
Proof.
  unfold well_formed, drop. cbn [rows columns]. rewrite !Forall_forall.
  intros H o Ho. apply in_map_iff in Ho. destruct Ho as [r [<- Hr]].
  now rewrite drop_row_names_eq, (H r Hr).
Qed.

Lemma filter_df_well_formed (cond : Row -> tribool) (df : DataFrame) :
  well_formed df -> well_formed (filter_df cond df).
Proof.
  unfold well_formed, filter_df. cbn [rows columns]. rewrite !Forall_forall.
  intros H r Hr. apply filter_In in Hr. now apply H.
Qed.

(** ** The catalogs of airlines and aircraft, and what the joins attach *)

Lemma holds_or3 (a b : tribool) : holds (or3 a b) = holds a || holds b.
Proof. destruct a as [[|]|], b as [[|]|]; reflexivity. Qed.

Lemma holds_sql_eq_code (v w : value) : holds (sql_eq v w) = same_code v w.
Proof.
  unfold same_code. destruct w.
  - now destruct v.
  - apply holds_sql_eq. discriminate.
  - apply holds_sql_eq. discriminate.
  - apply holds_sql_eq. discriminate.
Qed.

(** The output rows of a left join for one left row, when the matching rows
    of the right side are the images of a list [ms] of lines. *)
Lemma left_join_row_of_lines (cond : Row -> Row -> tribool)
  (right : DataFrame) (entry : Row -> Row) (ms : list Row) (l : Row) :
  matches cond right l = map entry ms ->
  left_join_row cond right l
  = match ms with
    | [] => [l ++ null_row (columns right)]
    | _ => map (fun r0 => l ++ entry r0) ms
    end.
Proof.
  unfold left_join_row. intros ->.
  destruct ms as [|m ms]; [reflexivity|].
  cbn [map]. now rewrite map_map.
Qed.

(** *** Airlines *)

Lemma df_airlines_rows (csv : DataFrame) :
  rows (df_airlines csv)
  = map airline_entry
        (filter (fun r0 => negb (is_null (get "_c3" r0))
                           || negb (is_null (get "_c4" r0))) (rows csv)).
Proof.
  unfold df_airlines, filter_df, withColumnRenamed, select.
  cbn [rows]. rewrite !map_map, map_filter_comm.
  f_equal. apply filter_ext. intros r0.
  unfold select_row.
  cbn [map fst snd rename get String.eqb Ascii.eqb Bool.eqb].
  unfold isNotNull. cbn [or3 holds].
  now destruct (is_null (get "_c3" r0)), (is_null (get "_c4" r0)).
Qed.

Lemma airline_matches (csv : DataFrame) (l : Row) :
  matches airline_cond (df_airlines csv) l
  = map airline_entry (filter (same_airline l) (rows csv)).
Proof.
  unfold matches. rewrite df_airlines_rows, map_filter_comm, filter_filter.
  f_equal. apply filter_ext. intros r0.
  unfold airline_cond, airline_entry, same_airline.
  cbn [get String.eqb Ascii.eqb Bool.eqb].
  rewrite holds_or3, !holds_sql_eq_code. unfold same_code.
  now destruct (is_null (get "_c3" r0)), (is_null (get "_c4" r0)).
Qed.

Lemma airline_rows_of_lines (csv : DataFrame) (l : Row) :
  airline_rows csv l
  = match filter (same_airline l) (rows csv) with
    | [] => [drop_row ["airline_iata"]
               (drop_row ["airline_icao"]
                  (l ++ null_row (columns (df_airlines csv))))]
    | ms => map (fun r0 => drop_row ["airline_iata"]
                             (drop_row ["airline_icao"] (l ++ airline_entry r0)))
                ms
    end.
Proof.
  unfold airline_rows.
  rewrite (left_join_row_of_lines airline_cond (df_airlines csv) airline_entry
             (filter (same_airline l) (rows csv)) l (airline_matches csv l)).
  destruct (filter (same_airline l) (rows csv)) as [|m ms]; [reflexivity|].
  now rewrite !map_map.
Qed.

(** The output of the airline stage is the concatenation, flight after
    flight, of the output rows of each flight.  The stage gives a flight
    that has no column [airline_name] one
    output row for every line of [airlines.dat] that has its ICAO code or
    its IATA code, in the order of the file and with the name of that line,
    and exactly one output row, without airline name, when no line has
    either code.  A code that is NULL on either side matches nothing, and
    does not prevent the match on the other code. *)
Theorem airline_name_attached :
  forall (csv df : DataFrame) (l : Row),
    fresh "airline_name" l ->
    rows (add_airlines_dataframe csv df)
    = flat_map (airline_rows csv) (rows df) /\
    (filter (same_airline l) (rows csv) = [] ->
     exists o, airline_rows csv l = [o] /\ get "airline_name" o = VNull) /\
    (filter (same_airline l) (rows csv) <> [] ->
     Forall2 (fun r0 o => get "airline_name" o = get "_c1" r0)
             (filter (same_airline l) (rows csv)) (airline_rows csv l)) /\
    (forall r0 : Row,
       same_airline l r0 = true <->
       (get "_c4" r0 <> VNull /\ get "airline_icao" l = get "_c4" r0) \/
       (get "_c3" r0 <> VNull /\ get "airline_iata" l = get "_c3" r0)).
Proof.
  intros csv df l Hf. split; [apply add_airlines_dataframe_rows|].
  rewrite airline_rows_of_lines. split; [|split].
  - intros ->. eexists. split; [reflexivity|].
    rewrite !get_drop_row_other by reflexivity.
    rewrite get_app_out by exact Hf. apply get_null_row.
  - intros Hne.
    destruct (filter (same_airline l) (rows csv)) as [|m ms] eqn:E;
      [contradiction|].
    apply Forall2_map_r. intros r0.
    rewrite !get_drop_row_other by reflexivity.
    now rewrite get_app_out by exact Hf.
  - intros r0. unfold same_airline, same_code.
    rewrite orb_true_iff, !andb_true_iff, !is_null_false, !value_eqb_eq.
    reflexivity.
Qed.

Lemma airline_name_attached_witness :
  Forall2 (fun r0 o => get "airline_name" o = get "_c1" r0)
          (filter (same_airline paris_new_york) (rows airlines_csv))
          (airline_rows airlines_csv paris_new_york) /\
  exists o, airline_rows airlines_csv paris_frankfurt = [o] /\
            get "airline_name" o = VNull.
Proof.
  split.
  - apply (airline_name_attached airlines_csv one_flight paris_new_york).
    + unfold fresh. simpl. intuition discriminate.
    + vm_compute. discriminate.
  - apply (airline_name_attached airlines_csv unlisted_airline paris_frankfurt).
    + unfold fresh. simpl. intuition discriminate.
    + vm_compute. reflexivity.
Defined.

(** *** Aircraft *)

Lemma planes_file_row (csv : DataFrame) (r0 : Row) :
  planes_file csv -> In r0 (rows csv) ->
  exists x y z, r0 = [("_c0", x); ("_c1", y); ("_c2", z)].
Proof.
  intros [Hc Hwf] Hr. unfold well_formed in Hwf.
  rewrite Forall_forall in Hwf. specialize (Hwf r0 Hr). rewrite Hc in Hwf.
  destruct r0 as [|[c0 x] [|[c1 y] [|[c2 z] [|p r0]]]]; try discriminate.
  injection Hwf as -> -> ->. now exists x, y, z.
Qed.

Lemma df_aircrafts_rows (csv : DataFrame) :
  planes_file csv ->
  rows (df_aircrafts csv)
  = map aircraft_entry
        (filter (fun r0 => negb (is_null (get "_c2" r0))) (rows csv)).
Proof.
  intros Hp. unfold df_aircrafts, filter_df, withColumnRenamed, drop.
  cbn [rows]. rewrite !map_map, map_filter_comm.
  assert (E : forall r0, In r0 (rows csv) ->
            map (fun p => (rename "_c2" "aircraft_code" (fst p), snd p))
              (map (fun p => (rename "_c0" "aircraft_name" (fst p), snd p))
                 (drop_row ["_c1"] r0)) = aircraft_entry r0).
  { intros r0 Hr0.
    destruct (planes_file_row csv r0 Hp Hr0) as [x [y [z ->]]].
    reflexivity. }
  transitivity
    (map aircraft_entry
       (filter (fun r0 => holds (isNotNull (get "aircraft_code" (aircraft_entry r0))))
               (rows csv))).
  - induction (rows csv) as [|r0 rs IH]; [reflexivity|].
    cbn [filter]. rewrite (E r0) by now left.
    assert (IH' := IH (fun r Hr => E r (or_intror Hr))).
    destruct (holds (isNotNull (get "aircraft_code" (aircraft_entry r0))));
      cbn [map]; [rewrite (E r0) by now left|]; now rewrite IH'.
  - f_equal. apply filter_ext. intros r0.
    cbn [aircraft_entry get String.eqb Ascii.eqb Bool.eqb].
    unfold isNotNull. cbn [holds]. now destruct (is_null (get "_c2" r0)).
Qed.

Lemma aircraft_matches (csv : DataFrame) (l : Row) :
  planes_file csv ->
  matches aircraft_cond (df_aircrafts csv) l
  = map aircraft_entry (filter (same_aircraft l) (rows csv)).
Proof.
  intros Hp. unfold matches.
  rewrite (df_aircrafts_rows csv Hp), map_filter_comm, filter_filter.
  f_equal. apply filter_ext. intros r0.
  unfold aircraft_cond, aircraft_entry, same_aircraft.
  cbn [get String.eqb Ascii.eqb Bool.eqb].
  rewrite holds_sql_eq_code. unfold same_code.
  now destruct (is_null (get "_c2" r0)).
Qed.



(** ** The catalog of airports and what the two airport stages attach *)

Lemma holds_and3 (a b : tribool) : holds (and3 a b) = holds a && holds b.
Proof. destruct a as [[|]|], b as [[|]|]; reflexivity. Qed.

Lemma holds_isNotNull (v : value) : holds (isNotNull v) = true <-> v <> VNull.
Proof. destruct v; simpl; split; congruence. Qed.

(** The rows of [df_airport]: the listed lines, with the four cells the
    script keeps. *)
Lemma df_airport_row (csv : DataFrame) (r : Row) :
  airport_file csv -> In r (rows (df_airport csv)) ->
  exists r0, In r0 (rows csv) /\ listed_airport r0 /\
    airport_cells "iata_code" "latitude_deg" "longitude_deg" "continent" r r0 /\
    forall c, ~ In c (columns csv) -> c <> "latitude_deg" ->
              c <> "longitude_deg" -> fresh c r.
Proof.
  intros [Hwf _] Hr. unfold df_airport in Hr. cbv zeta in Hr.
  set (d0 := drop _ csv) in Hr.
  set (d1 := filter_df _ d0) in Hr.
  set (d2 := withColumn "latitude_deg" _ d1) in Hr.
  assert (W1 : well_formed d1)
    by (apply filter_df_well_formed, drop_well_formed, Hwf).
  assert (W2 : well_formed d2) by (apply withColumn_well_formed, W1).
  rewrite withColumn_rows_cell in Hr. apply in_map_iff in Hr.
  destruct Hr as [r2 [<- Hr2]].
  unfold well_formed in W2. rewrite Forall_forall in W2.
  pose proof (W2 r2 Hr2) as N2.
  unfold d2 in Hr2. rewrite withColumn_rows_cell in Hr2.
  apply in_map_iff in Hr2. destruct Hr2 as [r1 [E2 Hr1]].
  unfold well_formed in W1. rewrite Forall_forall in W1.
  pose proof (W1 r1 Hr1) as N1.
  unfold d1, filter_df in Hr1. cbn [rows] in Hr1.
  apply filter_In in Hr1. destruct Hr1 as [Hr1 HP].
  unfold d0, drop in Hr1. cbn [rows] in Hr1.
  apply in_map_iff in Hr1. destruct Hr1 as [r0 [E1 Hr0]].
  unfold well_formed in Hwf. rewrite Forall_forall in Hwf.
  pose proof (Hwf r0 Hr0) as N0.
  exists r0. split; [exact Hr0|].
  rewrite holds_and3 in HP. apply andb_prop in HP. destruct HP as [HP1 HP2].
  apply holds_isNotNull in HP1, HP2.
  assert (G : forall c, mem c ["id"; "ident"; "type"; "name"; "elevation_ft";
                               "iso_region"; "municipality";
                               "scheduled_service"; "gps_code"; "local_code";
                               "home_link"; "wikipedia_link"; "keywords";
                               "iso_country"] = false ->
                        get c r1 = get c r0).
  { intros c Hc. rewrite <- E1. now apply get_drop_row_other. }
  rewrite (G "iata_code") in HP1 by reflexivity.
  rewrite (G "continent") in HP2 by reflexivity.
  split; [now split|]. split.
  - unfold airport_cells. repeat split.
    + rewrite with_cell_other by discriminate. rewrite <- E2.
      rewrite with_cell_other by discriminate. now apply G.
    + rewrite with_cell_other by discriminate. rewrite <- E2.
      rewrite with_cell_same by exact N1. now rewrite G.
    + rewrite with_cell_same by exact N2. rewrite <- E2.
      rewrite with_cell_other by discriminate. now rewrite G.
    + rewrite with_cell_other by discriminate. rewrite <- E2.
      rewrite with_cell_other by discriminate. now apply G.
  - intros c Hc Hlat Hlon.
    apply with_cell_fresh; [exact Hlon|]. rewrite <- E2.
    apply with_cell_fresh; [exact Hlat|]. rewrite <- E1.
    apply drop_row_fresh. unfold fresh. now rewrite N0.
Qed.

Lemma df_airport_listed (csv : DataFrame) (r0 : Row) :
  In r0 (rows csv) -> listed_airport r0 ->
  exists r, In r (rows (df_airport csv)) /\
            get "iata_code" r = get "iata_code" r0.
Proof.
  intros Hr0 [H1 H2]. unfold df_airport. cbv zeta.
  set (d0 := drop _ csv).
  set (d1 := filter_df _ d0).
  set (d2 := withColumn "latitude_deg" _ d1).
  set (r1 := drop_row ["id"; "ident"; "type"; "name"; "elevation_ft";
                       "iso_region"; "municipality"; "scheduled_service";
                       "gps_code"; "local_code"; "home_link";
                       "wikipedia_link"; "keywords"; "iso_country"] r0).
  assert (G : forall c, mem c ["id"; "ident"; "type"; "name"; "elevation_ft";
                               "iso_region"; "municipality";
                               "scheduled_service"; "gps_code"; "local_code";
                               "home_link"; "wikipedia_link"; "keywords";
                               "iso_country"] = false ->
                        get c r1 = get c r0)
    by (intros c Hc; now apply get_drop_row_other).
  assert (Hr1 : In r1 (rows d1)).
  { unfold d1, filter_df. cbn [rows]. apply filter_In. split.
    - unfold d0, drop. cbn [rows]. now apply in_map.
    - rewrite holds_and3, !G by reflexivity.
      apply andb_true_intro. split; now apply holds_isNotNull. }
  rewrite withColumn_rows_cell. unfold d2 at 2.
  rewrite withColumn_rows_cell, map_map.
  eexists. split.
  - apply in_map_iff. exists r1. split; [reflexivity | exact Hr1].
  - cbv beta. rewrite !with_cell_other by discriminate. now apply G.
Qed.

Ltac fresh_renamed :=
  repeat (apply rename_row_fresh; [discriminate|]); assumption.

Ltac get_renamed :=
  repeat first [ rewrite rename_row_other by discriminate
               | rewrite rename_row_new by fresh_renamed ].

Lemma destination_row_cells (r : Row) :
  fresh "destination_airport_iata" r ->
  fresh "destination_latitude_deg" r ->
  fresh "destination_longitude_deg" r ->
  fresh "destination_airport_continent" r ->
  let r' :=
    rename_row "continent" "destination_airport_continent"
      (rename_row "longitude_deg" "destination_longitude_deg"
         (rename_row "latitude_deg" "destination_latitude_deg"
            (rename_row "iata_code" "destination_airport_iata" r))) in
  get "destination_airport_iata" r' = get "iata_code" r /\
  get "destination_latitude_deg" r' = get "latitude_deg" r /\
  get "destination_longitude_deg" r' = get "longitude_deg" r /\
  get "destination_airport_continent" r' = get "continent" r.
Proof.
  intros Hk Ha Hb Hc. cbv zeta. repeat split; get_renamed; reflexivity.
Qed.

Lemma origin_row_cells (r : Row) :
  fresh "origin_airport_iata" r ->
  fresh "origin_latitude_deg" r ->
  fresh "origin_longitude_deg" r ->
  fresh "origin_airport_continent" r ->
  let r' :=
    rename_row "continent" "origin_airport_continent"
      (rename_row "longitude_deg" "origin_longitude_deg"
         (rename_row "latitude_deg" "origin_latitude_deg"
            (rename_row "iata_code" "origin_airport_iata" r))) in
  get "origin_airport_iata" r' = get "iata_code" r /\
  get "origin_latitude_deg" r' = get "latitude_deg" r /\
  get "origin_longitude_deg" r' = get "longitude_deg" r /\
  get "origin_airport_continent" r' = get "continent" r.
Proof.
  intros Hk Ha Hb Hc. cbv zeta. repeat split; get_renamed; reflexivity.
Qed.

Lemma matches_using (key : string) (right : DataFrame) (l r : Row) :
  In r (matches (using_cond key) right l) <->
  In r (rows right) /\ get key l = get key r /\ get key r <> VNull.
Proof.
  unfold matches, using_cond. now rewrite filter_In, holds_sql_eq_iff.
Qed.

(** What the join on a key column attaches: the cells of one matching row
    in the columns that the left row does not have, or NULL in all of them
    when no row matches. *)
Lemma left_join_using_row_attached (key : string) (right : DataFrame)
  (l o : Row) :
  In o (left_join_using_row key right l) ->
  get key o = get key l /\
  ((matches (using_cond key) right l = [] /\
    forall c, fresh c l -> get c o = VNull) \/
   (exists r, In r (matches (using_cond key) right l) /\
              forall c, fresh c l -> c <> key -> get c o = get c r)).
Proof.
  unfold left_join_using_row. intros Ho.
  destruct (matches (using_cond key) right l) as [|m ms] eqn:E.
  - destruct Ho as [<-|[]]. split.
    + cbn [get]. now rewrite String.eqb_refl.
    + left. split; [reflexivity|]. intros c Hc. now apply get_using_row_new.
  - apply in_map_iff in Ho. destruct Ho as [r [<- Hr]]. split.
    + cbn [get]. now rewrite String.eqb_refl.
    + right. exists r. split; [exact Hr|]. intros c Hc Hk.
      cbn [get]. apply String.eqb_neq in Hk. rewrite Hk.
      rewrite get_app_out by now apply drop_row_fresh.
      apply get_drop_row_other. now rewrite mem_single.
Qed.

Section Role.
Variables key nlat nlon ncont : string.
Variables right csv : DataFrame.
Hypothesis Hlat : nlat <> key.
Hypothesis Hlon : nlon <> key.
Hypothesis Hcont : ncont <> key.
Hypothesis Hrows :
  forall r, In r (rows right) ->
    exists r0, In r0 (rows csv) /\ listed_airport r0 /\
               airport_cells key nlat nlon ncont r r0.
Hypothesis Hlisted :
  forall r0, In r0 (rows csv) -> listed_airport r0 ->
    exists r, In r (rows right) /\ get key r = get "iata_code" r0.

Lemma role_attached (l o : Row) :
  fresh nlat l -> fresh nlon l -> fresh ncont l ->
  In o (left_join_using_row key right l) ->
  (get nlat o = VNull /\ get nlon o = VNull /\ get ncont o = VNull /\
   forall r0, In r0 (rows csv) -> listed_airport r0 ->
              get "iata_code" r0 <> get key l) \/
  (exists r0, In r0 (rows csv) /\ listed_airport r0 /\
              get "iata_code" r0 = get key l /\
              airport_cells key nlat nlon ncont o r0).
Proof.
  intros Fa Fb Fc Ho.
  destruct (left_join_using_row_attached key right l o Ho)
    as [Hk [[E Hnull]|[r [Hr Hcells]]]].
  - left. repeat split; try (now apply Hnull).
    intros r0 Hr0 Hl0 Heq.
    destruct (Hlisted r0 Hr0 Hl0) as [r [Hr Hkr]].
    assert (Hin : In r (matches (using_cond key) right l)).
    { apply matches_using. split; [exact Hr|]. rewrite Hkr.
      split; [now symmetry | apply Hl0]. }
    rewrite E in Hin. contradiction.
  - right. apply matches_using in Hr. destruct Hr as [Hr [Heq Hn]].
    destruct (Hrows r Hr) as [r0 [Hr0 [Hl0 [C1 [C2 [C3 C4]]]]]].
    exists r0. split; [exact Hr0|]. split; [exact Hl0|]. split.
    + now rewrite <- C1.
    + unfold airport_cells. rewrite Hk, Heq, C1.
      rewrite (Hcells nlat Fa Hlat), (Hcells nlon Fb Hlon),
              (Hcells ncont Fc Hcont).
      now rewrite C2, C3, C4.
Qed.

End Role.

Lemma destination_catalog (csv : DataFrame) :
  airport_file csv ->
  (forall r, In r (rows (df_airport_destination csv)) ->
     exists r0, In r0 (rows csv) /\ listed_airport r0 /\
       airport_cells "destination_airport_iata" "destination_latitude_deg"
         "destination_longitude_deg" "destination_airport_continent" r r0) /\
  (forall r0, In r0 (rows csv) -> listed_airport r0 ->
     exists r, In r (rows (df_airport_destination csv)) /\
               get "destination_airport_iata" r = get "iata_code" r0).
Proof.
  intros Hfile.
  assert (Hcells : forall r, In r (rows (df_airport csv)) ->
    exists r0, In r0 (rows csv) /\ listed_airport r0 /\
      airport_cells "destination_airport_iata" "destination_latitude_deg"
        "destination_longitude_deg" "destination_airport_continent"
        (rename_row "continent" "destination_airport_continent"
           (rename_row "longitude_deg" "destination_longitude_deg"
              (rename_row "latitude_deg" "destination_latitude_deg"
                 (rename_row "iata_code" "destination_airport_iata" r)))) r0).
  { intros r Hr.
    destruct (df_airport_row csv r Hfile Hr) as [r0 [Hr0 [Hl0 [C F]]]].
    destruct Hfile as [_ [_ Hnew]].
    assert (Fr : forall c,
              In c ["destination_airport_iata"; "destination_latitude_deg";
                    "destination_longitude_deg";
                    "destination_airport_continent"] -> fresh c r).
    { intros c Hc. apply F.
      - apply Hnew. simpl in Hc |- *. tauto.
      - simpl in Hc. intuition (subst c; discriminate).
      - simpl in Hc. intuition (subst c; discriminate). }
    destruct (destination_row_cells r) as [D1 [D2 [D3 D4]]];
      try (apply Fr; simpl; tauto).
    exists r0. split; [exact Hr0|]. split; [exact Hl0|].
    destruct C as [C1 [C2 [C3 C4]]]. unfold airport_cells.
    now rewrite D1, D2, D3, D4. }
  split.
  - intros r' Hr'. unfold df_airport_destination in Hr'.
    rewrite !withColumnRenamed_rows, !map_map in Hr'.
    apply in_map_iff in Hr'. destruct Hr' as [r [<- Hr]].
    now apply Hcells.
  - intros r0 Hr0 Hl0.
    destruct (df_airport_listed csv r0 Hr0 Hl0) as [r [Hr Hk]].
    destruct (Hcells r Hr) as [r1 [_ [_ [C1 _]]]].
    destruct (df_airport_row csv r Hfile Hr) as [r2 [_ [_ [[C2 _] F]]]].
    eexists. split.
    + unfold df_airport_destination.
      rewrite !withColumnRenamed_rows, !map_map.
      apply in_map_iff. exists r. split; [reflexivity | exact Hr].
    + cbv beta. destruct Hfile as [_ [_ Hnew]].
      assert (Fr : forall c,
                In c ["destination_airport_iata"; "destination_latitude_deg";
                      "destination_longitude_deg";
                      "destination_airport_continent"] -> fresh c r).
      { intros c Hc. apply F.
        - apply Hnew. simpl in Hc |- *. tauto.
        - simpl in Hc. intuition (subst c; discriminate).
        - simpl in Hc. intuition (subst c; discriminate). }
      destruct (destination_row_cells r) as [D1 _];
        try (apply Fr; simpl; tauto).
      now rewrite D1.
Qed.

Lemma origin_catalog (csv : DataFrame) :
  airport_file csv ->
  (forall r, In r (rows (df_airport_origin csv)) ->
     exists r0, In r0 (rows csv) /\ listed_airport r0 /\
       airport_cells "origin_airport_iata" "origin_latitude_deg"
         "origin_longitude_deg" "origin_airport_continent" r r0) /\
  (forall r0, In r0 (rows csv) -> listed_airport r0 ->
     exists r, In r (rows (df_airport_origin csv)) /\
               get "origin_airport_iata" r = get "iata_code" r0).
Proof.
  intros Hfile.
  assert (Hfresh : forall r, In r (rows (df_airport csv)) ->
    forall c, In c ["origin_airport_iata"; "origin_latitude_deg";
                    "origin_longitude_deg"; "origin_airport_continent"] ->
              fresh c r).
  { intros r Hr c Hc.
    destruct (df_airport_row csv r Hfile Hr) as [_ [_ [_ [_ F]]]].
    destruct Hfile as [_ [_ Hnew]]. apply F.
    - apply Hnew. simpl in Hc |- *. tauto.
    - simpl in Hc. intuition (subst c; discriminate).
    - simpl in Hc. intuition (subst c; discriminate). }
  assert (Hcells : forall r, In r (rows (df_airport csv)) ->
    exists r0, In r0 (rows csv) /\ listed_airport r0 /\
      airport_cells "origin_airport_iata" "origin_latitude_deg"
        "origin_longitude_deg" "origin_airport_continent"
        (rename_row "continent" "origin_airport_continent"
           (rename_row "longitude_deg" "origin_longitude_deg"
              (rename_row "latitude_deg" "origin_latitude_deg"
                 (rename_row "iata_code" "origin_airport_iata" r)))) r0).
  { intros r Hr.
    destruct (df_airport_row csv r Hfile Hr) as [r0 [Hr0 [Hl0 [C _]]]].
    destruct (origin_row_cells r) as [D1 [D2 [D3 D4]]];
      try (apply (Hfresh r Hr); simpl; tauto).
    exists r0. split; [exact Hr0|]. split; [exact Hl0|].
    destruct C as [C1 [C2 [C3 C4]]]. unfold airport_cells.
    now rewrite D1, D2, D3, D4. }
  split.
  - intros r' Hr'. unfold df_airport_origin in Hr'.
    rewrite !withColumnRenamed_rows, !map_map in Hr'.
    apply in_map_iff in Hr'. destruct Hr' as [r [<- Hr]].
    now apply Hcells.
  - intros r0 Hr0 Hl0.
    destruct (df_airport_listed csv r0 Hr0 Hl0) as [r [Hr Hk]].
    eexists. split.
    + unfold df_airport_origin.
      rewrite !withColumnRenamed_rows, !map_map.
      apply in_map_iff. exists r. split; [reflexivity | exact Hr].
    + cbv beta.
      destruct (origin_row_cells r) as [D1 _];
        try (apply (Hfresh r Hr); simpl; tauto).
      now rewrite D1.
Qed.


